(** * generate_components.py: SBOM component aggregation

    A shallow embedding of [generate_components.py] and the properties of
    its four stages: discovery, extraction, aggregation and sort, emission.

    Conventions of the embedding.
    - A Python [str] is a [string] holding its UTF-8 bytes; byte-wise
      lexicographic order of UTF-8 is the code point order Python uses.
    - Values returned by [json.load] are the inductive [json]; a [dict] is
      the list of its items in insertion order, keys pairwise distinct.
    - Paths follow [pathlib.PurePosixPath]: separator "/", comparison of
      parts is case sensitive.
    - An uncaught Python exception is the [Raise] case of [result];
      [print] appends a line to the log carried next to the result.
    - The answers of the operating system to the writes of a run are an
      argument of [main_os]; [main] is the run in which they succeed. *)

From Stdlib Require Import String Ascii List Bool Arith ZArith Lia.
From Stdlib Require Import Permutation Sorted RelationClasses.
From Stdlib Require Import SpecFloat DecimalString.
Import ListNotations.

Local Open Scope list_scope.
Local Open Scope string_scope.

(* ===================================================================== *)
(** ** Python strings *)
(* ===================================================================== *)

Module PyStr.

(** [sep.join(parts)] *)
Fixpoint join (sep : string) (parts : list string) : string :=
  match parts with
  | [] => ""
  | [p] => p
  | p :: rest => p ++ sep ++ join sep rest
  end.

(** [s.rfind(c)] for a one-character needle; [None] is Python's -1. *)
Fixpoint rfind (c : ascii) (s : string) : option nat :=
  match s with
  | EmptyString => None
  | String a s' =>
      match rfind c s' with
      | Some i => Some (S i)
      | None => if Ascii.eqb a c then Some 0 else None
      end
  end.

(** [s.replace(old, new)] for one-character [old] and [new]. *)
Fixpoint replace (old new : ascii) (s : string) : string :=
  match s with
  | EmptyString => EmptyString
  | String a s' => String (if Ascii.eqb a old then new else a) (replace old new s')
  end.

(** [c in s] *)
Fixpoint contains (c : ascii) (s : string) : bool :=
  match s with
  | EmptyString => false
  | String a s' => Ascii.eqb a c || contains c s'
  end.

(** [s.startswith(c)] *)
Definition starts_with (c : ascii) (s : string) : bool :=
  match s with
  | EmptyString => false
  | String a _ => Ascii.eqb a c
  end.

(** [str(n)] for a non-negative [int] *)
Definition of_nat (n : nat) : string :=
  NilEmpty.string_of_uint (Nat.to_uint n).

(** [str(z)] for an [int] *)
Definition of_Z (z : Z) : string :=
  NilEmpty.string_of_int (Z.to_int z).

End PyStr.

(* ===================================================================== *)
(** ** pathlib, POSIX flavour *)
(* ===================================================================== *)

Module PurePath.

(** A parsed path: [root] is "" (relative) or "/" (absolute), [tail] the
    remaining parts. pathlib keeps no empty part, no "." part and no part
    holding the separator. *)
Record t : Type := mk { root : string; tail : list string }.

Definition sep : ascii := "/"%char.

(** [p / name] for a single relative part *)
Definition div (p : t) (name : string) : t :=
  mk (root p) (tail p ++ [name])%list.

(** [p / rel] for the parts of a relative path *)
Definition join_parts (p : t) (rel : list string) : t :=
  mk (root p) (tail p ++ rel)%list.

(** [Path(part)] for a single part *)
Definition of_part (part : string) : t := mk "" [part].

(** [p.parts] *)
Definition parts (p : t) : list string :=
  if String.eqb (root p) "" then tail p else root p :: tail p.

(** [str(p)] *)
Definition str (p : t) : string :=
  match root p, tail p with
  | EmptyString, [] => "."
  | r, tl => r ++ PyStr.join (String sep "") tl
  end.

(** [p.as_posix()]: [str(self).replace(sep, '/')] *)
Definition as_posix (p : t) : string :=
  PyStr.replace sep "/"%char (str p).

(** [p.name] *)
Definition name (p : t) : string := last (tail p) "".

(** [p.stem]: the name without its last suffix; a leading or a trailing
    dot starts no suffix. *)
Definition stem_of_name (nm : string) : string :=
  match PyStr.rfind "."%char nm with
  | Some i =>
      if Nat.ltb 0 i && Nat.ltb i (String.length nm - 1)
      then String.substring 0 i nm
      else nm
  | None => nm
  end.

Definition stem (p : t) : string := stem_of_name (name p).

(** [strip_prefix pre l]: the rest of [l] after [pre], when [pre] is a
    prefix of [l]. *)
Fixpoint strip_prefix (pre l : list string) : option (list string) :=
  match pre, l with
  | [], _ => Some l
  | _ :: _, [] => None
  | a :: pre', b :: l' =>
      if String.eqb a b then strip_prefix pre' l' else None
  end.

(** [p.relative_to(other)]; [None] is [ValueError]. *)
Definition relative_to (p other : t) : option t :=
  if String.eqb (root p) (root other)
  then option_map (mk "") (strip_prefix (tail other) (tail p))
  else None.

(** Parts a directory walk can produce: not empty, no separator. *)
Definition part_ok (s : string) : bool :=
  negb (String.eqb s "") && negb (PyStr.contains sep s).

End PurePath.

(* ===================================================================== *)
(** ** JSON values as [json.load] returns them *)
(* ===================================================================== *)

#[local] Set Warnings "-register-all".

Inductive json : Type :=
| JNull
| JBool (b : bool)
| JInt (z : Z)
| JFloat (f : spec_float)
| JStr (s : string)
| JArr (items : list json)
| JObj (members : list (string * json)).

(** Uncaught exceptions the program can raise after a successful parse. *)
Inductive exn : Type :=
| AttributeError   (* [.get] on a value that is not a dict *)
| TypeError        (* iteration over a value that is not iterable *)
| ValueError.      (* [relative_to] on a path outside the root *)

Inductive result (A : Type) : Type :=
| Ok (a : A)
| Raise (e : exn).
Arguments Ok {A} a.
Arguments Raise {A} e.

Definition bind {A B : Type} (r : result A) (k : A -> result B) : result B :=
  match r with
  | Ok a => k a
  | Raise e => Raise e
  end.

Declare Scope py_scope.
Delimit Scope py_scope with py.
Notation "x <- c ;; k" := (bind c (fun x => k))
  (at level 61, c at next level, right associativity) : py_scope.
Local Open Scope py_scope.

Module Py.

(** [bool(v)] *)
Definition truthy (v : json) : bool :=
  match v with
  | JNull => false
  | JBool b => b
  | JInt z => negb (Z.eqb z 0)
  | JFloat (S754_zero _) => false
  | JFloat _ => true
  | JStr s => negb (String.eqb s "")
  | JArr items => match items with [] => false | _ => true end
  | JObj members => match members with [] => false | _ => true end
  end.

(** [a or b] *)
Definition or_ (a b : json) : json := if truthy a then a else b.

(** Item lookup in a dict. *)
Fixpoint lookup (k : string) (members : list (string * json)) : option json :=
  match members with
  | [] => None
  | (k', v) :: rest => if String.eqb k k' then Some v else lookup k rest
  end.

(** [v.get(k, default)]; only a dict has the method. *)
Definition get (v : json) (k : string) (default : json) : result json :=
  match v with
  | JObj members =>
      Ok (match lookup k members with Some x => x | None => default end)
  | _ => Raise AttributeError
  end.

(** The items [for x in v] visits. A str yields its characters and a dict
    its keys, each a non-empty str (one per byte here, one per code point
    in Python; the element type and emptiness are the same). *)
Definition iter (v : json) : result (list json) :=
  match v with
  | JArr items => Ok items
  | JStr s => Ok (map (fun c => JStr (String c "")) (list_ascii_of_string s))
  | JObj members => Ok (map (fun kv => JStr (fst kv)) members)
  | _ => Raise TypeError
  end.

(** [isinstance(v, dict)] *)
Definition is_dict (v : json) : bool :=
  match v with JObj _ => true | _ => false end.

Definition is_str (v : json) : bool :=
  match v with JStr _ => true | _ => false end.

End Py.

(* ===================================================================== *)
(** ** The program *)
(* ===================================================================== *)

(** What reading one file gives: [open] or [json.load] raised (with the
    text of the exception), or the parsed document. *)
Inductive file_content : Type :=
| Unreadable (err : string)
| Parsed (data : json).

(** One path that [SBOM_ROOT.rglob("*.json")] yields: its parts below the
    root, whether it is a regular file, and what reading it gives. *)
Record dir_entry : Type := {
  rel_parts : list string;
  is_file : bool;
  content : file_content
}.

(** The dict built at lines 54-65; values keep the type [Any]. *)
Record component : Type := {
  project_name : json;
  project_version : json;
  project_group : json;
  sbom_path : string;
  component_name : json;
  component_version : json;
  component_group : json;
  component_type : json;
  purl : json;
  licenses : list json
}.

(** The file system and console as one run sees and leaves them. *)
Record world : Type := {
  sbom_root : option (list dir_entry); (* [None]: SBOM_ROOT does not exist;
                                          else the rglob enumeration *)
  output_dir : bool;                   (* OUTPUT_DIR exists *)
  output_file : option string;         (* content of OUTPUT_FILE *)
  stdout : list string                 (* lines printed so far *)
}.

(** How the process ends. *)
Inductive termination : Type :=
| Normal
| SystemExit (msg : string)
| Uncaught (e : exn).

Definition exit_code (t : termination) : Z :=
  match t with
  | Normal => 0
  | SystemExit _ => 1
  | Uncaught _ => 1
  end.

(** What the operating system answers to the three writes of a run:
    [OUTPUT_DIR.mkdir] (line 94), [OUTPUT_FILE.open("w")] (line 108) and
    the dump into the open file (line 109). [None] is success; otherwise
    the text of the [OSError] raised (a [FileExistsError] when the
    directory path is a regular file, a [PermissionError], a full disk).
    A dump that fails leaves [fst] in the file, which [open] had
    truncated. *)
Record output_os : Type := {
  mkdir_error : option string;
  open_error : option string;
  dump_error : option (string * string)
}.

(** How the process ends when the writes may fail. *)
Inductive os_termination : Type :=
| Ended (t : termination)
| OSError (msg : string).

Definition os_exit_code (t : os_termination) : Z :=
  match t with
  | Ended t => exit_code t
  | OSError _ => 1
  end.

(** [print(line)] *)
Definition print (log : list string) (line : string) : list string :=
  (log ++ [line])%list.

(** [for x in items: body], threading the variables the body updates. *)
Fixpoint for_each {S A : Type} (body : S -> A -> result S) (s : S)
    (items : list A) : result S :=
  match items with
  | [] => Ok s
  | x :: rest => s' <- body s x ;; for_each body s' rest
  end.

(** The sort key of line 106, for records whose three key fields are str. *)
Definition key : Type := (string * string * string)%type.

Definition sort_key (x : component) : option key :=
  match project_name x, component_name x, component_version x with
  | JStr p, JStr n, JStr v => Some (p, n, v)
  | _, _, _ => None
  end.

(** Tuple [<]: the first differing position decides. *)
Definition key_lt (a b : key) : bool :=
  let '(a1, a2, a3) := a in
  let '(b1, b2, b3) := b in
  if negb (String.eqb a1 b1) then String.ltb a1 b1
  else if negb (String.eqb a2 b2) then String.ltb a2 b2
  else String.ltb a3 b3.

Definition key_eqb (a b : key) : bool :=
  let '(a1, a2, a3) := a in
  let '(b1, b2, b3) := b in
  String.eqb a1 b1 && String.eqb a2 b2 && String.eqb a3 b3.

Fixpoint insert (x : key * component) (l : list (key * component))
  : list (key * component) :=
  match l with
  | [] => [x]
  | y :: l' => if key_lt (fst y) (fst x) then y :: insert x l' else x :: y :: l'
  end.

Fixpoint keys_of (l : list component) : option (list (key * component)) :=
  match l with
  | [] => Some []
  | x :: l' =>
      match sort_key x, keys_of l' with
      | Some k, Some kl => Some ((k, x) :: kl)
      | _, _ => None
      end
  end.

(** [l.sort(key=...)]: the keys are computed first, then the list is
    sorted stably by [<] on the keys, here by insertion from the right.
    On str keys [<] is a total order and every stable sort gives this
    list (see [stable_sort_unique]). With a key field that is not a str
    Python's [<] may raise or fail to be an order and what timsort then
    does depends on its runs; that is outside the embedding: [None]. *)
Definition list_sort (l : list component) : option (list component) :=
  option_map (fun kl => map snd (fold_right insert [] kl)) (keys_of l).

(* ===================================================================== *)
(** ** The specification's notions *)
(* ===================================================================== *)

(** Section 4.4: ascending lexicographic comparison of the str tuple. *)
Definition lex_le (a b : key) : Prop :=
  let '(a1, a2, a3) := a in
  let '(b1, b2, b3) := b in
  String.ltb a1 b1 = true \/
  (a1 = b1 /\ (String.ltb a2 b2 = true \/
               (a2 = b2 /\ (String.ltb a3 b3 = true \/ a3 = b3)))).

Definition has_key (k : key) (x : component) : bool :=
  match sort_key x with
  | Some k' => key_eqb k' k
  | None => false
  end.

Definition record_le (a b : component) : Prop :=
  match sort_key a, sort_key b with
  | Some ka, Some kb => lex_le ka kb
  | _, _ => False
  end.

Definition stable_sort_of (input output : list component) : Prop :=
  Permutation input output
  /\ Sorted record_le output
  /\ forall k, filter (has_key k) output = filter (has_key k) input.

Definition keyed (x : component) : Prop := sort_key x <> None.

(** Section 4.3, step 5, in the words of the specification: the value of
    field [k] when it is present and non-empty. *)
Definition present_nonempty (k : string) (members : list (string * json))
  : option json :=
  match Py.lookup k members with
  | Some v => if Py.truthy v then Some v else None
  | None => None
  end.

(** The identifier one license entry contributes: from the nested
    [license] value when that is a mapping, [id] before [name]. *)
Definition license_identifier (entry : json) : option json :=
  match entry with
  | JObj members =>
      match Py.lookup "license" members with
      | Some (JObj lic) =>
          match present_nonempty "id" lic with
          | Some i => Some i
          | None => present_nonempty "name" lic
          end
      | _ => None
      end
  | _ => None
  end.

Definition identifiers (entries : list json) : list json :=
  flat_map (fun e => match license_identifier e with
                     | Some i => [i]
                     | None => []
                     end) entries.

(** The shape of section 3 as far as a run depends on it: optional
    fields may be absent; the names and versions that enter the sort key
    are str, a [licenses] value is a sequence of mappings. *)
Definition optional (p : json -> bool) (k : string)
    (members : list (string * json)) : bool :=
  match Py.lookup k members with
  | Some v => p v
  | None => true
  end.

Definition array_of (p : json -> bool) (v : json) : bool :=
  match v with
  | JArr items => forallb p items
  | _ => false
  end.

Definition component_like (c : json) : bool :=
  match c with
  | JObj m =>
      optional Py.is_str "name" m
      && optional Py.is_str "version" m
      && optional (array_of Py.is_dict) "licenses" m
  | _ => false
  end.

Definition project_like (mc : json) : bool :=
  match mc with
  | JObj m => optional Py.is_str "name" m
  | _ => false
  end.

Definition metadata_like (md : json) : bool :=
  match md with
  | JObj m => optional project_like "component" m
  | _ => false
  end.

Definition sbom_like (data : json) : bool :=
  match data with
  | JObj m =>
      optional metadata_like "metadata" m
      && optional (array_of component_like) "components" m
  | _ => false
  end.

(** The precondition of extraction as a reader of lines 29-51 states it:
    the document is an object, [metadata] when present is an object,
    every entry of a [components] array is an object and every entry of
    a [licenses] array is an object. *)
Definition component_shape (c : json) : bool :=
  match c with
  | JObj m =>
      match Py.lookup "licenses" m with
      | Some (JArr entries) => forallb Py.is_dict entries
      | _ => true
      end
  | _ => false
  end.

Definition expected_shape (data : json) : bool :=
  match data with
  | JObj m =>
      match Py.lookup "metadata" m with
      | Some md => Py.is_dict md
      | None => true
      end
      && match Py.lookup "components" m with
         | Some (JArr items) => forallb component_shape items
         | _ => true
         end
  | _ => false
  end.

(** The value of field [k], or the default of lines 39-43. *)
Definition field (k : string) (members : list (string * json)) : json :=
  match Py.lookup k members with
  | Some v => v
  | None => JStr ""
  end.

(** [metadata.component.name], when the document declares it. *)
Definition declared_project_name (data : json) : option json :=
  match data with
  | JObj m =>
      match Py.lookup "metadata" m with
      | Some (JObj md) =>
          match Py.lookup "component" md with
          | Some (JObj mc) => Py.lookup "name" mc
          | _ => None
          end
      | _ => None
      end
  | _ => None
  end.

(** A discovered regular file that cannot be read or parsed. *)
Definition unreadable (e : dir_entry) : bool :=
  is_file e && match content e with
               | Unreadable _ => true
               | Parsed _ => false
               end.

Definition without_unreadable (rglob : list dir_entry) : list dir_entry :=
  filter (fun e => negb (unreadable e)) rglob.

(** Every discovered regular file either cannot be read or holds a
    document of the section 3 shape. *)
Definition tree_like (rglob : list dir_entry) : bool :=
  forallb (fun e => negb (is_file e)
                    || match content e with
                       | Unreadable _ => true
                       | Parsed data => sbom_like data
                       end) rglob.

(** What a directory walk yields: at least one part below the root, each
    a file or directory name. *)
Definition walk_ok (rglob : list dir_entry) : bool :=
  forallb (fun e => match rel_parts e with
                    | [] => false
                    | _ :: _ => forallb PurePath.part_ok (rel_parts e)
                    end) rglob.

(** The writes of lines 94 and 108-109 succeed: the output directory
    exists or can be created, the file can be opened and written. *)
Definition writable (os : output_os) (w : world) : Prop :=
  (output_dir w = true \/ mkdir_error os = None)
  /\ open_error os = None /\ dump_error os = None.

(** The warning line of line 26 for file [sbom] and error text [err]. *)
Definition warning (sbom : PurePath.t) (err : string) : string :=
  "[WARN] Failed to read SBOM " ++ PurePath.str sbom ++ ": " ++ err.

(** What a run leaves for its callers: the output file and the way it
    ended. *)
Definition outcome (r : option (world * termination))
  : option (option string * termination) :=
  option_map (fun p => (output_file (fst p), snd p)) r.

(** Order and key agreement on the decorated list [list_sort] works on. *)
Definition pair_le (x y : key * component) : Prop := key_lt (fst y) (fst x) = false.
Definition pair_ok (x : key * component) : Prop := sort_key (snd x) = Some (fst x).

(** The record lines 39-66 build for component [c] of a file whose
    project fields are [pn], [pv], [pg] and whose relative path is
    [path]. *)
Definition record_of_component (pn pv pg : json) (path : string)
    (c : json) (r : component) : Prop :=
  exists m,
    c = JObj m
    /\ project_name r = pn /\ project_version r = pv
    /\ project_group r = pg /\ sbom_path r = path
    /\ component_name r = field "name" m
    /\ component_version r = field "version" m
    /\ component_group r = field "group" m
    /\ component_type r = field "type" m
    /\ purl r = field "purl" m.

(** The documents lines 29-68 accept, read off the calls they make:
    [.get] needs a dict, a loop needs an iterable whose items the body
    accepts, and [x or []] accepts every false-y [x]. *)
Definition licenses_ok (v : json) : bool :=
  if Py.truthy v then array_of Py.is_dict v else true.

Definition component_ok (c : json) : bool :=
  match c with
  | JObj m => optional licenses_ok "licenses" m
  | _ => false
  end.

Definition components_ok (v : json) : bool :=
  match v with
  | JArr items => forallb component_ok items
  | JStr s => String.eqb s ""
  | JObj [] => true
  | _ => false
  end.

Definition metadata_ok (md : json) : bool :=
  match md with
  | JObj m => optional Py.is_dict "component" m
  | _ => false
  end.

Definition extractable (data : json) : bool :=
  match data with
  | JObj m =>
      optional metadata_ok "metadata" m
      && optional components_ok "components" m
  | _ => false
  end.

Module Example2.

(** A second project. *)
Definition beta_entry : dir_entry :=
  {| rel_parts := ["beta.json"];
     is_file := true;
     content :=
       Parsed (JObj [("metadata",
                      JObj [("component", JObj [("name", JStr "beta")])]);
                     ("components",
                      JArr [JObj [("name", JStr "openssl")]])]) |}.

(** The writes succeed; the directory path is taken by a regular file. *)
Definition os_ok : output_os :=
  {| mkdir_error := None; open_error := None; dump_error := None |}.

Definition os_data_is_a_file : output_os :=
  {| mkdir_error := Some "[Errno 17] File exists: '/srv/app/data'";
     open_error := None;
     dump_error := None |}.

End Example2.

(* ===================================================================== *)
(** ** Concrete inputs *)
(* ===================================================================== *)

Module Example.

Definition script : string := "/srv/app/generate_components.py".
Definition base_dir : PurePath.t := PurePath.mk "/" ["srv"; "app"].

Definition quote : ascii := ascii_of_nat 34.
Definition backslash : ascii := ascii_of_nat 92.

(** The JSON encoder on printable ASCII: the text between quotes, a quote
    or a backslash preceded by a backslash. *)
Fixpoint escape (s : string) : string :=
  match s with
  | EmptyString => EmptyString
  | String a s' =>
      if Ascii.eqb a quote || Ascii.eqb a backslash
      then String backslash (String a (escape s'))
      else String a (escape s')
  end.

Definition encode (s : string) : string :=
  String quote (escape s ++ String quote "").

(** No example holds a float. *)
Definition floatstr (f : spec_float) : string := "0.0".

Definition mit_entry : json := JObj [("license", JObj [("id", JStr "MIT")])].
Definition apache_entry : json :=
  JObj [("license", JObj [("name", JStr "Apache-2.0")])].

Definition zlib : list (string * json) :=
  [("name", JStr "zlib"); ("version", JStr "1.3.1");
   ("licenses", JArr [mit_entry; apache_entry])].

(** A component with a name only. *)
Definition bare : list (string * json) := [("name", JStr "abc")].

(** A component whose licenses are null. *)
Definition null_licenses : list (string * json) :=
  [("name", JStr "left-pad"); ("licenses", JNull)].

Definition alpha_doc : json :=
  JObj [("components", JArr [JObj zlib; JObj bare])].

Definition alpha_entry : dir_entry :=
  {| rel_parts := ["teams"; "alpha"; "sbom.json"];
     is_file := true;
     content := Parsed alpha_doc |}.

Definition broken_entry : dir_entry :=
  {| rel_parts := ["broken.json"];
     is_file := true;
     content := Unreadable "Expecting value: line 1 column 1 (char 0)" |}.

Definition world_of (rglob : option (list dir_entry)) : world :=
  {| sbom_root := rglob;
     output_dir := false;
     output_file := None;
     stdout := [] |}.

(** A valid file next to a malformed one. *)
Definition two_files : world := world_of (Some [broken_entry; alpha_entry]).

(** An existing root without files, and a missing root. *)
Definition empty_root : world := world_of (Some []).
Definition missing_root : world := world_of None.

(** A file that parses to a top-level array. *)
Definition array_entry : dir_entry :=
  {| rel_parts := ["list.json"];
     is_file := true;
     content := Parsed (JArr []) |}.
Definition array_file : world := world_of (Some [array_entry]).

(** A file whose name holds a backslash, as a POSIX file system allows. *)
Definition backslash_entry : dir_entry :=
  {| rel_parts := ["we\ird.json"];
     is_file := true;
     content := Parsed (JObj [("components", JArr [JObj bare])]) |}.
Definition backslash_file : world := world_of (Some [backslash_entry]).

End Example.

Section Program.

(** [__file__] and [Path(__file__).resolve().parent] *)
Variable script_file : string.
Variable BASE_DIR : PurePath.t.

(** [json.encoder.encode_basestring_ascii] and the encoder's [floatstr];
    both are functions of the value alone. *)
Variable encode_basestring_ascii : string -> string.
Variable floatstr : spec_float -> string.

Definition SBOM_ROOT : PurePath.t := PurePath.div BASE_DIR "sboms".
Definition OUTPUT_DIR : PurePath.t := PurePath.div BASE_DIR "data".
Definition OUTPUT_FILE : PurePath.t := PurePath.div OUTPUT_DIR "components.json".

(** Lines 12-14. *)
Definition find_sbom_files (root : PurePath.t) (rglob : list dir_entry)
  : list (PurePath.t * file_content) :=
  map (fun e => (PurePath.join_parts root (rel_parts e), content e))
      (filter is_file rglob).

(** Lines 71-81. *)
Definition infer_project_name_from_path (sbom : PurePath.t) : string :=
  match PurePath.relative_to sbom SBOM_ROOT with
  | None => PurePath.stem sbom
  | Some rel =>
      let parts := PurePath.parts rel in
      let parts :=
        match parts with
        | [] => parts
        | _ :: _ =>
            (removelast parts
               ++ [PurePath.stem (PurePath.of_part (last parts ""))])%list
        end in
      PyStr.join "/" parts
  end.

(** Lines 47-51: the body of the loop over the license entries. *)
Definition license_step (licenses : list json) (l : json)
  : result (list json) :=
  lic <- Py.get l "license" (JObj []) ;;
  if Py.is_dict lic then
    id <- Py.get lic "id" JNull ;;
    lic_id <- (if Py.truthy id then Ok id else Py.get lic "name" JNull) ;;
    if Py.truthy lic_id then Ok (licenses ++ [lic_id])%list else Ok licenses
  else Ok licenses.

(** Lines 39-66: the body of the loop over the components. *)
Definition component_step (sbom : PurePath.t)
    (project_name project_version project_group : json)
    (results : list component) (c : json) : result (list component) :=
  name <- Py.get c "name" (JStr "") ;;
  version <- Py.get c "version" (JStr "") ;;
  group <- Py.get c "group" (JStr "") ;;
  purl <- Py.get c "purl" (JStr "") ;;
  c_type <- Py.get c "type" (JStr "") ;;
  lics <- Py.get c "licenses" (JArr []) ;;
  entries <- Py.iter (Py.or_ lics (JArr [])) ;;
  licenses <- for_each license_step [] entries ;;
  rel <- match PurePath.relative_to sbom SBOM_ROOT with
         | Some rel => Ok rel
         | None => Raise ValueError
         end ;;
  Ok (results ++
      [ {| project_name := project_name;
           project_version := project_version;
           project_group := project_group;
           sbom_path := PurePath.as_posix rel;
           component_name := name;
           component_version := version;
           component_group := group;
           component_type := c_type;
           purl := purl;
           licenses := licenses |} ])%list.

(** Lines 29-68: extraction from a parsed document. *)
Definition extract_parsed (sbom : PurePath.t) (data : json)
  : result (list component) :=
  components <- Py.get data "components" (JArr []) ;;
  metadata <- Py.get data "metadata" (JObj []) ;;
  meta_component <- Py.get metadata "component" (JObj []) ;;
  declared <- Py.get meta_component "name" JNull ;;
  let project_name :=
    if Py.truthy declared then declared
    else JStr (infer_project_name_from_path sbom) in
  project_version <- Py.get meta_component "version" (JStr "") ;;
  project_group <- Py.get meta_component "group" (JStr "") ;;
  items <- Py.iter components ;;
  for_each (component_step sbom project_name project_version project_group)
           [] items.

(** Lines 17-68. The first component is what the call prints. *)
Definition extract_components_from_sbom (sbom : PurePath.t)
    (c : file_content) : list string * result (list component) :=
  match c with
  | Unreadable e =>
      (["[WARN] Failed to read SBOM " ++ PurePath.str sbom ++ ": " ++ e],
       Ok [])
  | Parsed data => ([], extract_parsed sbom data)
  end.

(** [json.dump(v, f, indent=2)] *)
Definition newline_indent (level : nat) : string :=
  String "010"%char (String.concat "" (repeat "  " level)).

Fixpoint dumps (level : nat) (v : json) : string :=
  match v with
  | JNull => "null"
  | JBool true => "true"
  | JBool false => "false"
  | JInt z => PyStr.of_Z z
  | JFloat f => floatstr f
  | JStr s => encode_basestring_ascii s
  | JArr [] => "[]"
  | JArr items =>
      "[" ++ newline_indent (S level)
          ++ PyStr.join ("," ++ newline_indent (S level))
                        (map (dumps (S level)) items)
          ++ newline_indent level ++ "]"
  | JObj [] => "{}"
  | JObj members =>
      "{" ++ newline_indent (S level)
          ++ PyStr.join ("," ++ newline_indent (S level))
               (map (fun kv => encode_basestring_ascii (fst kv) ++ ": "
                                 ++ dumps (S level) (snd kv)) members)
          ++ newline_indent level ++ "}"
  end.

Definition component_dict (x : component) : json :=
  JObj [ ("project_name", project_name x);
         ("project_version", project_version x);
         ("project_group", project_group x);
         ("sbom_path", JStr (sbom_path x));
         ("component_name", component_name x);
         ("component_version", component_version x);
         ("component_group", component_group x);
         ("component_type", component_type x);
         ("purl", purl x);
         ("licenses", JArr (licenses x)) ].

Definition json_dump (all_components : list component) : string :=
  dumps 0 (JArr (map component_dict all_components)).

(** Lines 101-104: the loop over the discovered files; the log and the
    accumulator are threaded, an exception leaves the loop. *)
Fixpoint extract_all (sbom_files : list (PurePath.t * file_content))
    (log : list string) (all_components : list component)
  : list string * result (list component) :=
  match sbom_files with
  | [] => (log, Ok all_components)
  | (sbom, c) :: rest =>
      let (printed, r) := extract_components_from_sbom sbom c in
      match r with
      | Raise e => ((log ++ printed)%list, Raise e)
      | Ok comps =>
          extract_all rest
            (print (log ++ printed)%list
                   ("[INFO] " ++ PurePath.str sbom ++ ": extracted "
                      ++ PyStr.of_nat (List.length comps) ++ " components"))
            (all_components ++ comps)%list
      end
  end.

(** Lines 84-111, for a run whose writes succeed: [OUTPUT_DIR] exists or
    can be created and [OUTPUT_FILE] can be opened and written. The run
    with failing writes is [main_os] below. [None] only where [list_sort]
    is. *)
Definition main (w : world) : option (world * termination) :=
  let log := print (stdout w) ("[DEBUG] __file__     = " ++ script_file) in
  let log := print log ("[DEBUG] BASE_DIR    = " ++ PurePath.str BASE_DIR) in
  let log := print log ("[DEBUG] SBOM_ROOT   = " ++ PurePath.str SBOM_ROOT) in
  let log := print log ("[DEBUG] OUTPUT_FILE = " ++ PurePath.str OUTPUT_FILE) in
  match sbom_root w with
  | None =>
      Some ({| sbom_root := sbom_root w;
               output_dir := output_dir w;
               output_file := output_file w;
               stdout := log |},
            SystemExit ("SBOM root directory does not exist: "
                          ++ PurePath.str SBOM_ROOT))
  | Some rglob =>
      let sbom_files := find_sbom_files SBOM_ROOT rglob in
      let log :=
        print log ("[INFO] Found " ++ PyStr.of_nat (List.length sbom_files)
                     ++ " SBOM file(s) under " ++ PurePath.str SBOM_ROOT) in
      match extract_all sbom_files log [] with
      | (log, Raise e) =>
          Some ({| sbom_root := sbom_root w;
                   output_dir := true;
                   output_file := output_file w;
                   stdout := log |},
                Uncaught e)
      | (log, Ok all_components) =>
          match list_sort all_components with
          | None => None
          | Some sorted =>
              Some ({| sbom_root := sbom_root w;
                       output_dir := true;
                       output_file := Some (json_dump sorted);
                       stdout :=
                         print log ("[INFO] Wrote "
                                      ++ PyStr.of_nat (List.length sorted)
                                      ++ " components to "
                                      ++ PurePath.str OUTPUT_FILE) |},
                    Normal)
          end
      end
  end.

(** A record built from file [sbom] of project [pn]. *)
Definition from_file (sbom : PurePath.t) (pn : json) (r : component) : Prop :=
  project_name r = pn
  /\ exists rel, PurePath.relative_to sbom SBOM_ROOT = Some rel
                 /\ sbom_path r = PurePath.as_posix rel.

(** Section 4.3, step 3: the declared name when it is present and
    non-empty, else the name derived from the path. *)
Definition project_name_for (sbom : PurePath.t) (data : json) : json :=
  match declared_project_name data with
  | Some v =>
      if Py.truthy v then v else JStr (infer_project_name_from_path sbom)
  | None => JStr (infer_project_name_from_path sbom)
  end.

(** What one discovered file contributes. *)
Definition records_of (f : PurePath.t * file_content) : list component :=
  match snd (extract_components_from_sbom (fst f) (snd f)) with
  | Ok rs => rs
  | Raise _ => []
  end.

(** The concatenation of the per-file results, in discovery order. *)
Definition aggregated (sbom_files : list (PurePath.t * file_content))
  : list component :=
  flat_map records_of sbom_files.

(** The exception of the first file whose extraction raises. *)
Fixpoint first_raise (sbom_files : list (PurePath.t * file_content))
  : option exn :=
  match sbom_files with
  | [] => None
  | f :: rest =>
      match snd (extract_components_from_sbom (fst f) (snd f)) with
      | Raise e => Some e
      | Ok _ => first_raise rest
      end
  end.

(** The list handed to [json.dump] at line 109. *)
Definition emitted (w : world) : option (list component) :=
  match sbom_root w with
  | None => None
  | Some rglob =>
      match first_raise (find_sbom_files SBOM_ROOT rglob) with
      | Some _ => None
      | None => list_sort (aggregated (find_sbom_files SBOM_ROOT rglob))
      end
  end.

(** Lines 84-111 with the answers of the operating system as an
    argument. [mkdir(parents=True, exist_ok=True)] succeeds on an existing
    directory; an [OSError] of line 94 ends the run before any file is
    read, one of line 108 before the file is touched, one of line 109
    after it was truncated. [main] is the run whose writes succeed
    (see [main_os_writable]). *)
Definition main_os (os : output_os) (w : world)
  : option (world * os_termination) :=
  let log := print (stdout w) ("[DEBUG] __file__     = " ++ script_file) in
  let log := print log ("[DEBUG] BASE_DIR    = " ++ PurePath.str BASE_DIR) in
  let log := print log ("[DEBUG] SBOM_ROOT   = " ++ PurePath.str SBOM_ROOT) in
  let log := print log ("[DEBUG] OUTPUT_FILE = " ++ PurePath.str OUTPUT_FILE) in
  match sbom_root w with
  | None =>
      Some ({| sbom_root := sbom_root w;
               output_dir := output_dir w;
               output_file := output_file w;
               stdout := log |},
            Ended (SystemExit ("SBOM root directory does not exist: "
                                 ++ PurePath.str SBOM_ROOT)))
  | Some rglob =>
      match (if output_dir w then None else mkdir_error os) with
      | Some msg =>
          Some ({| sbom_root := sbom_root w;
                   output_dir := output_dir w;
                   output_file := output_file w;
                   stdout := log |},
                OSError msg)
      | None =>
          let sbom_files := find_sbom_files SBOM_ROOT rglob in
          let log :=
            print log ("[INFO] Found "
                         ++ PyStr.of_nat (List.length sbom_files)
                         ++ " SBOM file(s) under "
                         ++ PurePath.str SBOM_ROOT) in
          match extract_all sbom_files log [] with
          | (log, Raise e) =>
              Some ({| sbom_root := sbom_root w;
                       output_dir := true;
                       output_file := output_file w;
                       stdout := log |},
                    Ended (Uncaught e))
          | (log, Ok all_components) =>
              match list_sort all_components with
              | None => None
              | Some sorted =>
                  match open_error os, dump_error os with
                  | Some msg, _ =>
                      Some ({| sbom_root := sbom_root w;
                               output_dir := true;
                               output_file := output_file w;
                               stdout := log |},
                            OSError msg)
                  | None, Some (partial, msg) =>
                      Some ({| sbom_root := sbom_root w;
                               output_dir := true;
                               output_file := Some partial;
                               stdout := log |},
                            OSError msg)
                  | None, None =>
                      Some ({| sbom_root := sbom_root w;
                               output_dir := true;
                               output_file := Some (json_dump sorted);
                               stdout :=
                                 print log ("[INFO] Wrote "
                                              ++ PyStr.of_nat
                                                   (List.length sorted)
                                              ++ " components to "
                                              ++ PurePath.str OUTPUT_FILE) |},
                            Ended Normal)
                  end
              end
          end
      end
  end.

(* ===================================================================== *)
(** ** The order on keys *)
(* ===================================================================== *)

Lemma str_compare_refl (s : string) : String.compare s s = Eq.
Proof.
  induction s as [|a s IH]; simpl; [reflexivity|].
  unfold Ascii.compare. rewrite N.compare_refl. exact IH.
Qed.

Lemma str_compare_lt_trans (a b c : string) :
  String.compare a b = Lt -> String.compare b c = Lt -> String.compare a c = Lt.
Proof.
  revert b c. induction a as [|x a IH]; intros [|y b] [|z c]; simpl; try congruence.
  destruct (Ascii.compare x y) eqn:Hxy; try discriminate;
  destruct (Ascii.compare y z) eqn:Hyz; try discriminate; intros H1 H2.
  - apply Ascii.compare_eq_iff in Hxy, Hyz. subst.
    unfold Ascii.compare. rewrite N.compare_refl. eauto.
  - apply Ascii.compare_eq_iff in Hxy. subst. rewrite Hyz. reflexivity.
  - apply Ascii.compare_eq_iff in Hyz. subst. rewrite Hxy. reflexivity.
  - unfold Ascii.compare in *. rewrite N.compare_lt_iff in *.
    assert (Hxz : (N_of_ascii x < N_of_ascii z)%N) by (eapply N.lt_trans; eassumption).
    apply N.compare_lt_iff in Hxz. rewrite Hxz. reflexivity.
Qed.

Lemma str_ltb_lt (a b : string) : String.ltb a b = true <-> String.compare a b = Lt.
Proof. unfold String.ltb. destruct (String.compare a b); split; congruence. Qed.

Lemma str_ltb_irrefl (s : string) : String.ltb s s = false.
Proof. unfold String.ltb. rewrite str_compare_refl. reflexivity. Qed.

Lemma str_ltb_trans (a b c : string) :
  String.ltb a b = true -> String.ltb b c = true -> String.ltb a c = true.
Proof. rewrite !str_ltb_lt. apply str_compare_lt_trans. Qed.

Lemma str_ltb_connex (a b : string) :
  String.ltb a b = false -> String.ltb b a = false -> a = b.
Proof.
  unfold String.ltb. rewrite (String.compare_antisym b a).
  destruct (String.compare a b) eqn:H; simpl; try discriminate.
  intros _ _. now apply String.compare_eq_iff.
Qed.

Ltac key_cases :=
  repeat match goal with
    | k : key |- _ => destruct k as [[? ?] ?]
    end;
  unfold key_lt, key_eqb in *;
  repeat match goal with
    | |- context [String.eqb ?a ?b] => destruct (String.eqb_spec a b); subst
    | H : context [String.eqb ?a ?b] |- _ => destruct (String.eqb_spec a b); subst
    end; simpl in *.

Lemma key_eqb_eq (a b : key) : key_eqb a b = true <-> a = b.
Proof. key_cases; split; congruence. Qed.

Lemma key_eqb_refl (a : key) : key_eqb a a = true.
Proof. now apply key_eqb_eq. Qed.

Lemma key_lt_irrefl (a : key) : key_lt a a = false.
Proof. key_cases; try congruence. apply str_ltb_irrefl. Qed.

Lemma key_lt_trans (a b c : key) :
  key_lt a b = true -> key_lt b c = true -> key_lt a c = true.
Proof.
  key_cases; intros H1 H2; try congruence;
    try (eapply str_ltb_trans; eassumption);
    try (pose proof (str_ltb_trans _ _ _ H1 H2) as H3;
         rewrite str_ltb_irrefl in H3; discriminate).
Qed.

Lemma key_lt_connex (a b : key) :
  key_lt a b = false -> key_lt b a = false -> a = b.
Proof.
  key_cases; intros H1 H2; try congruence;
    pose proof (str_ltb_connex _ _ H1 H2); congruence.
Qed.

Lemma key_lt_asym (a b : key) : key_lt a b = true -> key_lt b a = false.
Proof.
  intros H. destruct (key_lt b a) eqn:E; [|reflexivity].
  pose proof (key_lt_trans _ _ _ H E) as H3.
  rewrite key_lt_irrefl in H3. discriminate.
Qed.

Lemma key_not_lt_lex_le (a b : key) : key_lt b a = false <-> lex_le a b.
Proof.
  destruct a as [[a1 a2] a3], b as [[b1 b2] b3]. unfold key_lt, lex_le.
  destruct (String.eqb_spec b1 a1) as [->|N1]; simpl.
  - destruct (String.eqb_spec b2 a2) as [->|N2]; simpl.
    + split.
      * intros H. right. split; [reflexivity|]. right. split; [reflexivity|].
        destruct (String.ltb a3 b3) eqn:E; [now left|right].
        now apply str_ltb_connex.
      * intros [H|[_ [H|[_ [H|H]]]]].
        -- rewrite str_ltb_irrefl in H. discriminate.
        -- rewrite str_ltb_irrefl in H. discriminate.
        -- destruct (String.ltb b3 a3) eqn:E; [|reflexivity].
           pose proof (str_ltb_trans _ _ _ H E) as H3.
           rewrite str_ltb_irrefl in H3. discriminate.
        -- subst. apply str_ltb_irrefl.
    + split.
      * intros H. right. split; [reflexivity|].
        destruct (String.ltb a2 b2) eqn:E; [now left|].
        exfalso. apply N2. symmetry. now apply str_ltb_connex.
      * intros [H|[_ [H|[-> _]]]].
        -- rewrite str_ltb_irrefl in H. discriminate.
        -- destruct (String.ltb b2 a2) eqn:E; [|reflexivity].
           pose proof (str_ltb_trans _ _ _ H E) as H3.
           rewrite str_ltb_irrefl in H3. discriminate.
        -- congruence.
  - split.
    + intros H. destruct (String.ltb a1 b1) eqn:E; [now left|].
      exfalso. apply N1. symmetry. now apply str_ltb_connex.
    + intros [H|[-> _]]; [|congruence].
      destruct (String.ltb b1 a1) eqn:E; [|reflexivity].
      pose proof (str_ltb_trans _ _ _ H E) as H3.
      rewrite str_ltb_irrefl in H3. discriminate.
Qed.

(* ===================================================================== *)
(** ** The sort *)
(* ===================================================================== *)

Lemma insert_perm x l : Permutation (x :: l) (insert x l).
Proof.
  induction l as [|y l IH]; simpl; [apply Permutation_refl|].
  destruct (key_lt (fst y) (fst x)).
  - eapply perm_trans; [apply perm_swap|]. now apply perm_skip.
  - apply Permutation_refl.
Qed.

Lemma isort_perm l : Permutation l (fold_right insert [] l).
Proof.
  induction l as [|x l IH]; simpl; [constructor|].
  eapply perm_trans; [apply perm_skip, IH|apply insert_perm].
Qed.

Lemma insert_hdrel a x l :
  pair_le a x -> HdRel pair_le a l -> HdRel pair_le a (insert x l).
Proof.
  intros Hax Hal. destruct l as [|y l]; simpl; [now constructor|].
  destruct (key_lt (fst y) (fst x)); constructor; auto.
  now inversion Hal.
Qed.

Lemma insert_sorted x l : Sorted pair_le l -> Sorted pair_le (insert x l).
Proof.
  induction 1 as [|y l Hs IH Hd]; simpl.
  - repeat constructor.
  - destruct (key_lt (fst y) (fst x)) eqn:E.
    + constructor; [exact IH|]. apply insert_hdrel; [|exact Hd].
      unfold pair_le. now apply key_lt_asym.
    + constructor; [now constructor|]. constructor. exact E.
Qed.

Lemma isort_sorted l : Sorted pair_le (fold_right insert [] l).
Proof.
  induction l; simpl; [constructor|now apply insert_sorted].
Qed.

Lemma insert_filter k x l :
  filter (fun y => key_eqb (fst y) k) (insert x l)
  = filter (fun y => key_eqb (fst y) k) (x :: l).
Proof.
  induction l as [|y l IH]; [reflexivity|].
  cbn [insert]. destruct (key_lt (fst y) (fst x)) eqn:E; [|reflexivity].
  cbn [filter] in *. rewrite IH.
  destruct (key_eqb (fst x) k) eqn:Ex; [|reflexivity].
  destruct (key_eqb (fst y) k) eqn:Ey; [|reflexivity].
  apply key_eqb_eq in Ex, Ey. rewrite Ex, <- Ey, key_lt_irrefl in E.
  discriminate.
Qed.

Lemma isort_filter k l :
  filter (fun y => key_eqb (fst y) k) (fold_right insert [] l)
  = filter (fun y => key_eqb (fst y) k) l.
Proof.
  induction l as [|x l IH]; [reflexivity|].
  cbn [fold_right]. rewrite insert_filter. cbn [filter]. now rewrite IH.
Qed.

Lemma keys_of_spec l kl :
  keys_of l = Some kl -> map snd kl = l /\ Forall pair_ok kl.
Proof.
  revert kl. induction l as [|x l IH]; simpl; intros kl H.
  - injection H as <-. split; constructor.
  - destruct (sort_key x) as [k|] eqn:Ek; [|discriminate].
    destruct (keys_of l) as [kl'|]; [|discriminate].
    injection H as <-. destruct (IH _ eq_refl) as [Hm Hf].
    split; [simpl; now rewrite Hm|constructor; auto].
Qed.

Lemma keys_of_keyed l : Forall keyed l -> exists kl, keys_of l = Some kl.
Proof.
  induction 1 as [|x l Hx _ [kl IH]]; simpl; [eauto|].
  unfold keyed in Hx. destruct (sort_key x); [|congruence].
  rewrite IH. eauto.
Qed.

Lemma keys_of_some_keyed l kl : keys_of l = Some kl -> Forall keyed l.
Proof.
  revert kl. induction l as [|x l IH]; simpl; intros kl H; [constructor|].
  destruct (sort_key x) eqn:E; [|discriminate].
  destruct (keys_of l); [|discriminate].
  constructor; [unfold keyed; congruence|eauto].
Qed.

Lemma filter_map_snd k kl :
  Forall pair_ok kl ->
  filter (has_key k) (map snd kl)
  = map snd (filter (fun y => key_eqb (fst y) k) kl).
Proof.
  induction 1 as [|x l Hx _ IH]; [reflexivity|].
  cbn [map filter]. unfold has_key at 1. rewrite Hx, IH.
  now destruct (key_eqb (fst x) k).
Qed.

Lemma sorted_map_snd kl :
  Forall pair_ok kl -> Sorted pair_le kl -> Sorted record_le (map snd kl).
Proof.
  intros Hok Hs. induction Hs as [|x l Hs IH Hd]; simpl; [constructor|].
  inversion Hok as [|? ? Hx Hl]; subst.
  constructor; [auto|].
  destruct Hd as [|y l Hxy]; simpl; constructor.
  inversion Hl as [|? ? Hy _]; subst.
  unfold record_le. rewrite Hx, Hy. now apply key_not_lt_lex_le.
Qed.

Lemma list_sort_stable_sort l out :
  list_sort l = Some out -> stable_sort_of l out.
Proof.
  unfold list_sort. destruct (keys_of l) as [kl|] eqn:E; [|discriminate].
  intros H. injection H as <-.
  destruct (keys_of_spec _ _ E) as [Hm Hok].
  assert (Hok' : Forall pair_ok (fold_right insert [] kl)).
  { rewrite Forall_forall in *. intros x Hx. apply Hok.
    eapply Permutation_in; [apply Permutation_sym, isort_perm|exact Hx]. }
  repeat split.
  - rewrite <- Hm at 1. apply Permutation_map, isort_perm.
  - apply sorted_map_snd; [exact Hok'|apply isort_sorted].
  - intros k. rewrite filter_map_snd by exact Hok'.
    rewrite isort_filter, <- filter_map_snd by exact Hok. now rewrite Hm.
Qed.

Lemma list_sort_keyed l : Forall keyed l -> exists out, list_sort l = Some out.
Proof.
  intros H. destruct (keys_of_keyed _ H) as [kl E].
  unfold list_sort. rewrite E. simpl. eauto.
Qed.

Lemma key_le_trans (a b c : key) :
  key_lt b a = false -> key_lt c b = false -> key_lt c a = false.
Proof.
  intros Hab Hbc. destruct (key_lt c a) eqn:Hca; [|reflexivity].
  destruct (key_lt a b) eqn:E.
  - rewrite (key_lt_trans _ _ _ Hca E) in Hbc. discriminate.
  - rewrite <- (key_lt_connex _ _ E Hab), Hca in Hbc. discriminate.
Qed.

#[local] Instance record_le_trans : Transitive record_le.
Proof.
  intros a b c. unfold record_le.
  destruct (sort_key a), (sort_key b), (sort_key c); try tauto.
  rewrite <- !key_not_lt_lex_le. apply key_le_trans.
Qed.

Lemma sorted_head_le x l y :
  Sorted record_le (x :: l) -> In y l -> record_le x y.
Proof.
  intros Hs Hy. apply Sorted_StronglySorted in Hs; [|exact record_le_trans].
  inversion Hs as [|? ? _ Hf]; subst.
  rewrite Forall_forall in Hf. now apply Hf.
Qed.

Lemma stable_sort_unique_aux l1 : forall l2,
  Forall keyed l1 ->
  Permutation l1 l2 ->
  Sorted record_le l1 -> Sorted record_le l2 ->
  (forall k, filter (has_key k) l1 = filter (has_key k) l2) ->
  l1 = l2.
Proof.
  induction l1 as [|x l1 IH]; intros l2 Hk Hp Hs1 Hs2 Hf.
  - symmetry. now apply Permutation_nil.
  - destruct l2 as [|y l2].
    { apply Permutation_sym, Permutation_nil in Hp. discriminate. }
    assert (Hyin : In y (x :: l1)).
    { eapply Permutation_in; [apply Permutation_sym, Hp|now left]. }
    assert (Hxin : In x (y :: l2)).
    { eapply Permutation_in; [apply Hp|now left]. }
    assert (Hx : keyed x) by now inversion Hk.
    assert (Hy : keyed y) by (rewrite Forall_forall in Hk; now apply Hk).
    unfold keyed in Hx, Hy.
    destruct (sort_key x) as [kx|] eqn:Ex; [|congruence].
    destruct (sort_key y) as [ky|] eqn:Ey; [|congruence].
    assert (Hkk : kx = ky).
    { destruct Hyin as [->|Hyin]; [congruence|].
      destruct Hxin as [->|Hxin]; [congruence|].
      pose proof (sorted_head_le _ _ _ Hs1 Hyin) as H1.
      pose proof (sorted_head_le _ _ _ Hs2 Hxin) as H2.
      unfold record_le in H1, H2. rewrite Ex, Ey in H1, H2.
      apply key_not_lt_lex_le in H1, H2. now apply key_lt_connex. }
    subst ky.
    assert (Hxy : x = y).
    { assert (Hhx : has_key kx x = true)
        by (unfold has_key; rewrite Ex; apply key_eqb_refl).
      assert (Hhy : has_key kx y = true)
        by (unfold has_key; rewrite Ey; apply key_eqb_refl).
      specialize (Hf kx). cbn [filter] in Hf. rewrite Hhx, Hhy in Hf.
      now injection Hf. }
    subst y. f_equal. apply IH.
    + now inversion Hk.
    + eapply Permutation_cons_inv, Hp.
    + now inversion Hs1.
    + now inversion Hs2.
    + intros k. specialize (Hf k). cbn [filter] in Hf.
      destruct (has_key k x); [now injection Hf|exact Hf].
Qed.

Lemma stable_sort_unique input l1 l2 :
  Forall keyed input ->
  stable_sort_of input l1 -> stable_sort_of input l2 -> l1 = l2.
Proof.
  intros Hk (Hp1 & Hs1 & Hf1) (Hp2 & Hs2 & Hf2).
  apply stable_sort_unique_aux; auto.
  - rewrite Forall_forall in *. intros x Hx. apply Hk.
    eapply Permutation_in; [apply Permutation_sym, Hp1|exact Hx].
  - eapply perm_trans; [apply Permutation_sym, Hp1|exact Hp2].
  - intros k. now rewrite Hf1, Hf2.
Qed.

(* ===================================================================== *)
(** ** Strings and paths *)
(* ===================================================================== *)

Lemma replace_same c s : PyStr.replace c c s = s.
Proof.
  induction s as [|a s IH]; simpl; [reflexivity|].
  rewrite IH. destruct (Ascii.eqb_spec a c); congruence.
Qed.

Lemma strip_prefix_app pre l : PurePath.strip_prefix pre (pre ++ l)%list = Some l.
Proof.
  induction pre as [|a pre IH]; simpl; [reflexivity|].
  now rewrite String.eqb_refl.
Qed.

Lemma relative_to_join root rel :
  PurePath.relative_to (PurePath.join_parts root rel) root
  = Some (PurePath.mk "" rel).
Proof.
  unfold PurePath.relative_to, PurePath.join_parts. simpl.
  now rewrite String.eqb_refl, strip_prefix_app.
Qed.

Lemma as_posix_relative rel :
  rel <> [] ->
  PurePath.as_posix (PurePath.mk "" rel) = PyStr.join "/" rel.
Proof.
  intros H. unfold PurePath.as_posix, PurePath.str, PurePath.sep. simpl.
  rewrite replace_same. destruct rel; [congruence|reflexivity].
Qed.

Lemma rfind_none c s : PyStr.contains c s = false -> PyStr.rfind c s = None.
Proof.
  induction s as [|a s IH]; simpl; [reflexivity|].
  intros H. apply orb_false_iff in H as [Ha Hs]. now rewrite (IH Hs), Ha.
Qed.

Lemma rfind_app c s1 s2 i :
  PyStr.rfind c s2 = Some i ->
  PyStr.rfind c (s1 ++ s2) = Some (String.length s1 + i).
Proof.
  intros H. induction s1 as [|a s1 IH]; simpl; [exact H|]. now rewrite IH.
Qed.

Lemma substring_prefix s1 s2 : String.substring 0 (String.length s1) (s1 ++ s2) = s1.
Proof.
  induction s1 as [|a s1 IH]; simpl.
  - destruct s2; reflexivity.
  - now rewrite IH.
Qed.

Lemma length_append s1 s2 :
  String.length (s1 ++ s2) = String.length s1 + String.length s2.
Proof. induction s1; simpl; auto. Qed.

Lemma stem_of_name_suffix base ext :
  base <> "" -> ext <> "" -> PyStr.contains "."%char ext = false ->
  PurePath.stem_of_name (base ++ "." ++ ext) = base.
Proof.
  intros Hb He Hd. unfold PurePath.stem_of_name.
  assert (Hr : PyStr.rfind "."%char ("." ++ ext) = Some 0).
  { simpl. now rewrite (rfind_none _ _ Hd). }
  rewrite (rfind_app _ base _ _ Hr), Nat.add_0_r.
  rewrite length_append. simpl String.length.
  assert (0 < String.length base) by (destruct base; simpl; [congruence|lia]).
  assert (0 < String.length ext) by (destruct ext; simpl; [congruence|lia]).
  replace (Nat.ltb 0 (String.length base)) with true
    by (symmetry; apply Nat.ltb_lt; lia).
  replace (Nat.ltb (String.length base)
             (String.length base + S (String.length ext) - 1)) with true
    by (symmetry; apply Nat.ltb_lt; lia).
  simpl. apply substring_prefix.
Qed.

Lemma stem_of_name_json base :
  base <> "" -> PurePath.stem_of_name (base ++ ".json") = base.
Proof.
  intros H. apply (stem_of_name_suffix base "json"); [exact H|discriminate|reflexivity].
Qed.

Lemma contains_append c s1 s2 :
  PyStr.contains c (s1 ++ s2) = PyStr.contains c s1 || PyStr.contains c s2.
Proof.
  induction s1 as [|a s1 IH]; simpl; [reflexivity|].
  now rewrite IH, orb_assoc.
Qed.

Lemma contains_join c parts :
  c <> "/"%char ->
  PyStr.contains c (PyStr.join "/" parts) = existsb (PyStr.contains c) parts.
Proof.
  intros Hc. induction parts as [|p parts IH]; [reflexivity|].
  destruct parts as [|q parts].
  - simpl. now rewrite orb_false_r.
  - change (PyStr.join "/" (p :: q :: parts))
      with (p ++ "/" ++ PyStr.join "/" (q :: parts)).
    rewrite !contains_append, IH.
    assert (Hs : PyStr.contains c "/" = false).
    { cbn [PyStr.contains]. rewrite orb_false_r.
      destruct (Ascii.eqb_spec "/"%char c); congruence. }
    rewrite Hs. reflexivity.
Qed.

Lemma starts_with_join p parts :
  PurePath.part_ok p = true ->
  PyStr.starts_with "/"%char (PyStr.join "/" (p :: parts)) = false.
Proof.
  unfold PurePath.part_ok, PurePath.sep. intros H.
  apply andb_true_iff in H as [Hne Hsep].
  destruct p as [|a p]; [discriminate|].
  simpl in Hsep. apply negb_true_iff, orb_false_iff in Hsep as [Ha _].
  destruct parts; simpl; exact Ha.
Qed.

(* ===================================================================== *)
(** ** Extraction *)
(* ===================================================================== *)

Lemma license_step_dict licenses members :
  license_step licenses (JObj members)
  = Ok (licenses ++ identifiers [JObj members])%list.
Proof.
  unfold license_step, identifiers, license_identifier, present_nonempty.
  simpl. rewrite app_nil_r.
  destruct (Py.lookup "license" members) as [lic|]; simpl.
  - destruct lic; simpl; try (now rewrite app_nil_r).
    destruct (Py.lookup "id" members0) as [i|]; simpl.
    + destruct (Py.truthy i) eqn:Ei; simpl; [now rewrite Ei|].
      destruct (Py.lookup "name" members0) as [n|]; simpl;
        [destruct (Py.truthy n)|]; now rewrite ?app_nil_r.
    + destruct (Py.lookup "name" members0) as [n|]; simpl;
        [destruct (Py.truthy n)|]; now rewrite ?app_nil_r.
  - now rewrite app_nil_r.
Qed.

Lemma license_step_not_dict licenses l :
  Py.is_dict l = false -> license_step licenses l = Raise AttributeError.
Proof. intros H. destruct l; try discriminate H; reflexivity. Qed.

Lemma license_loop_dicts entries : forall licenses,
  forallb Py.is_dict entries = true ->
  for_each license_step licenses entries
  = Ok (licenses ++ identifiers entries)%list.
Proof.
  induction entries as [|l entries IH]; intros licenses H; simpl.
  - now rewrite app_nil_r.
  - simpl in H. apply andb_true_iff in H as [Hl Hr].
    destruct l; try discriminate.
    rewrite license_step_dict. simpl bind. rewrite (IH _ Hr).
    unfold identifiers. simpl. now rewrite app_nil_r, <- app_assoc.
Qed.

Lemma license_loop_raises entries : forall licenses,
  forallb Py.is_dict entries = false ->
  exists e, for_each license_step licenses entries = Raise e.
Proof.
  induction entries as [|l entries IH]; intros licenses H; simpl in *.
  - discriminate.
  - destruct (Py.is_dict l) eqn:El.
    + destruct l; try discriminate. rewrite license_step_dict. simpl bind.
      now apply IH.
    + rewrite (license_step_not_dict _ _ El). simpl. eauto.
Qed.

Lemma for_each_app {S A : Type} (body : S -> A -> result S) l1 l2 s :
  for_each body s (l1 ++ l2)%list
  = (s' <- for_each body s l1 ;; for_each body s' l2).
Proof.
  revert s. induction l1 as [|x l1 IH]; intros s; simpl; [reflexivity|].
  destruct (body s x); simpl; auto.
Qed.

Lemma for_each_raises {S A : Type} (body : S -> A -> result S) items x :
  In x items -> (forall s, exists e, body s x = Raise e) ->
  forall s, exists e, for_each body s items = Raise e.
Proof.
  intros Hin Hx. induction items as [|y items IH]; [contradiction|].
  intros s. simpl. destruct Hin as [->|Hin].
  - destruct (Hx s) as [e ->]. simpl. eauto.
  - destruct (body s y); simpl; eauto.
Qed.

Lemma for_each_invariant {S A : Type} (body : S -> A -> result S)
    (P : S -> Prop) items :
  (forall s x s', P s -> body s x = Ok s' -> P s') ->
  forall s s', P s -> for_each body s items = Ok s' -> P s'.
Proof.
  intros Hstep. induction items as [|x items IH]; intros s s' Hs; simpl.
  - intros H. injection H as <-. exact Hs.
  - destruct (body s x) as [s1|] eqn:E; simpl; [|discriminate].
    apply IH. eapply Hstep; eassumption.
Qed.

Lemma forallb_false_witness {A : Type} (f : A -> bool) l :
  forallb f l = false -> exists x, In x l /\ f x = false.
Proof.
  induction l as [|a l IH]; simpl; [discriminate|].
  destruct (f a) eqn:E; simpl.
  - intros H. destruct (IH H) as (x & Hx & Hf). eauto.
  - intros _. eauto.
Qed.

Lemma iter_or_array entries : Py.iter (Py.or_ (JArr entries) (JArr [])) = Ok entries.
Proof. destruct entries; reflexivity. Qed.

Lemma component_step_not_dict sbom pn pv pg results c :
  Py.is_dict c = false ->
  component_step sbom pn pv pg results c = Raise AttributeError.
Proof. intros H. destruct c; try discriminate H; reflexivity. Qed.

Lemma component_step_ok_inv sbom pn pv pg results c out :
  component_step sbom pn pv pg results c = Ok out ->
  exists m entries licenses rel,
    c = JObj m
    /\ Py.iter (Py.or_ (match Py.lookup "licenses" m with
                        | Some v => v
                        | None => JArr []
                        end) (JArr [])) = Ok entries
    /\ for_each license_step [] entries = Ok licenses
    /\ PurePath.relative_to sbom SBOM_ROOT = Some rel
    /\ out = (results ++
              [ {| project_name := pn;
                   project_version := pv;
                   project_group := pg;
                   sbom_path := PurePath.as_posix rel;
                   component_name := field "name" m;
                   component_version := field "version" m;
                   component_group := field "group" m;
                   component_type := field "type" m;
                   purl := field "purl" m;
                   licenses := licenses |} ])%list.
Proof.
  destruct c as [| | | | | |m]; try discriminate.
  unfold component_step. simpl.
  destruct (Py.iter _) as [entries|] eqn:Ei; simpl; [|discriminate].
  destruct (for_each license_step [] entries) as [lics|] eqn:El; simpl;
    [|discriminate].
  destruct (PurePath.relative_to sbom SBOM_ROOT) as [rel|] eqn:Er; simpl;
    [|discriminate].
  intros H. injection H as <-. exists m, entries, lics, rel.
  repeat split; auto.
Qed.

Lemma component_step_shape sbom pn pv pg results c :
  component_shape c = false ->
  exists e, component_step sbom pn pv pg results c = Raise e.
Proof.
  intros H. destruct c as [| | | | | |m]; try (eexists; reflexivity).
  simpl in H. unfold component_step. simpl.
  destruct (Py.lookup "licenses" m) as [[| | | | |entries|]|]; try discriminate.
  rewrite iter_or_array. simpl.
  destruct (license_loop_raises entries [] H) as [e ->]. simpl. eauto.
Qed.

Lemma component_step_like sbom rel pn pv pg results c :
  PurePath.relative_to sbom SBOM_ROOT = Some rel ->
  component_like c = true ->
  exists r,
    component_step sbom pn pv pg results c = Ok (results ++ [r])%list
    /\ project_name r = pn
    /\ Py.is_str (component_name r) = true
    /\ Py.is_str (component_version r) = true.
Proof.
  intros Hrel H. destruct c as [| | | | | |m]; try discriminate.
  simpl in H. apply andb_true_iff in H as [H Hl].
  apply andb_true_iff in H as [Hn Hv].
  unfold component_step. simpl. rewrite Hrel.
  unfold optional in *.
  assert (Hit : exists entries,
             Py.iter (Py.or_ (match Py.lookup "licenses" m with
                              | Some x => x
                              | None => JArr []
                              end) (JArr [])) = Ok entries
             /\ forallb Py.is_dict entries = true).
  { destruct (Py.lookup "licenses" m) as [v|].
    - destruct v; try discriminate. rewrite iter_or_array. eauto.
    - simpl. eauto. }
  destruct Hit as (entries & -> & Hd). simpl.
  rewrite (license_loop_dicts _ _ Hd). simpl.
  eexists. split; [reflexivity|]. simpl. repeat split.
  - destruct (Py.lookup "name" m); auto.
  - destruct (Py.lookup "version" m); auto.
Qed.

Lemma component_loop_from_file sbom pn pv pg items acc out :
  for_each (component_step sbom pn pv pg) acc items = Ok out ->
  Forall (from_file sbom pn) acc -> Forall (from_file sbom pn) out.
Proof.
  intros H Hacc.
  refine (for_each_invariant (component_step sbom pn pv pg)
            (Forall (from_file sbom pn)) items _ acc out Hacc H).
  intros s x s' Hs Hstep.
  apply component_step_ok_inv in Hstep
    as (m & entries & lics & rel & _ & _ & _ & Hrel & ->).
  apply Forall_app. split; [exact Hs|]. constructor; [|constructor].
  split; [reflexivity|]. exists rel. auto.
Qed.

Lemma component_loop_like sbom rel pn pv pg items : forall acc,
  PurePath.relative_to sbom SBOM_ROOT = Some rel ->
  Py.is_str pn = true ->
  forallb component_like items = true ->
  Forall keyed acc ->
  exists out,
    for_each (component_step sbom pn pv pg) acc items = Ok out
    /\ Forall keyed out.
Proof.
  induction items as [|c items IH]; intros acc Hrel Hpn Hl Hacc; simpl.
  - eauto.
  - simpl in Hl. apply andb_true_iff in Hl as [Hc Hl].
    destruct (component_step_like sbom rel pn pv pg acc c Hrel Hc)
      as (r & -> & Hp & Hn & Hv).
    simpl. apply IH; auto. apply Forall_app. split; [exact Hacc|].
    constructor; [|constructor]. unfold keyed, sort_key. rewrite Hp.
    destruct pn; try discriminate.
    destruct (component_name r); try discriminate.
    destruct (component_version r); try discriminate.
Qed.

Lemma component_loop_shape sbom pn pv pg items acc :
  forallb component_shape items = false ->
  exists e, for_each (component_step sbom pn pv pg) acc items = Raise e.
Proof.
  intros H. apply forallb_false_witness in H as (c & Hin & Hc).
  apply (for_each_raises _ items c Hin).
  intros s. now apply component_step_shape.
Qed.

Lemma extract_parsed_from_file sbom data rs :
  extract_parsed sbom data = Ok rs ->
  Forall (from_file sbom (project_name_for sbom data)) rs.
Proof.
  unfold extract_parsed, project_name_for, declared_project_name.
  destruct data as [| | | | | |m]; try discriminate. simpl.
  destruct (Py.lookup "metadata" m) as [md|]; simpl.
  - destruct md as [| | | | | |md]; try discriminate. simpl.
    destruct (Py.lookup "component" md) as [mc|]; simpl.
    + destruct mc as [| | | | | |mc]; try discriminate. simpl.
      destruct (Py.iter _) as [items|]; simpl; [|discriminate].
      intros H. eapply component_loop_from_file in H; [|constructor].
      destruct (Py.lookup "name" mc); exact H.
    + destruct (Py.iter _) as [items|]; simpl; [|discriminate].
      intros H. eapply component_loop_from_file in H; [|constructor]. exact H.
  - destruct (Py.iter _) as [items|]; simpl; [|discriminate].
    intros H. eapply component_loop_from_file in H; [|constructor]. exact H.
Qed.

Ltac raise_or_go :=
  match goal with
  | |- exists e, bind ?r _ = Raise e =>
      let E := fresh "E" in
      destruct r eqn:E; cbn [bind]; [|eauto]
  end.

Lemma extract_parsed_shape sbom data :
  expected_shape data = false ->
  exists e, extract_parsed sbom data = Raise e.
Proof.
  intros H. unfold extract_parsed.
  destruct data as [| | | | | |m]; try (eexists; reflexivity).
  simpl in H. cbn [Py.get bind].
  destruct (Py.lookup "metadata" m) as [md|] eqn:Em.
  - destruct (Py.is_dict md) eqn:Ed.
    + simpl in H. do 4 raise_or_go.
      destruct (Py.lookup "components" m) as [[| | | | |items|]|];
        try discriminate.
      cbn [Py.iter bind]. now apply component_loop_shape.
    + destruct md; try discriminate Ed; eexists; reflexivity.
  - simpl in H. do 4 raise_or_go.
    destruct (Py.lookup "components" m) as [[| | | | |items|]|];
      try discriminate.
    cbn [Py.iter bind]. now apply component_loop_shape.
Qed.

Lemma extract_parsed_like sbom rel data :
  PurePath.relative_to sbom SBOM_ROOT = Some rel ->
  sbom_like data = true ->
  exists rs, extract_parsed sbom data = Ok rs /\ Forall keyed rs.
Proof.
  intros Hrel H. unfold extract_parsed.
  destruct data as [| | | | | |m]; try discriminate.
  simpl in H. apply andb_true_iff in H as [Hmd Hc]. unfold optional in *.
  cbn [Py.get bind].
  assert (Hitems : exists items,
            Py.iter (match Py.lookup "components" m with
                     | Some x => x
                     | None => JArr []
                     end) = Ok items
            /\ forallb component_like items = true).
  { destruct (Py.lookup "components" m) as [v|].
    - destruct v; try discriminate. simpl. eauto.
    - simpl. eauto. }
  destruct Hitems as (items & Hit & Hlike).
  assert (Hloop : forall pn pv pg, Py.is_str pn = true ->
            exists rs,
              (items <- Py.iter (match Py.lookup "components" m with
                                 | Some x => x
                                 | None => JArr []
                                 end) ;;
               for_each (component_step sbom pn pv pg) [] items) = Ok rs
              /\ Forall keyed rs).
  { intros pn pv pg Hpn. rewrite Hit. cbn [bind].
    eapply component_loop_like; eauto. }
  destruct (Py.lookup "metadata" m) as [md|].
  - destruct md as [| | | | | |md]; try discriminate. simpl in Hmd.
    unfold optional in Hmd. cbn [Py.get bind].
    destruct (Py.lookup "component" md) as [mc|].
    + destruct mc as [| | | | | |mc]; try discriminate. simpl in Hmd.
      unfold optional in Hmd. cbn [Py.get bind].
      apply Hloop.
      destruct (Py.lookup "name" mc) as [v|]; [|reflexivity].
      destruct v; try discriminate. simpl. now destruct (negb _).
    + cbn [Py.get Py.lookup bind]. apply Hloop. reflexivity.
  - cbn [Py.get Py.lookup bind]. apply Hloop. reflexivity.
Qed.

(* ===================================================================== *)
(** ** The run *)
(* ===================================================================== *)

Lemma extract_all_result sbom_files : forall log acc,
  snd (extract_all sbom_files log acc)
  = match first_raise sbom_files with
    | Some e => Raise e
    | None => Ok (acc ++ aggregated sbom_files)%list
    end.
Proof.
  induction sbom_files as [|[sbom c] rest IH]; intros log acc; simpl.
  - now rewrite app_nil_r.
  - unfold records_of. simpl.
    destruct (extract_components_from_sbom sbom c) as [printed [rs|e]]; simpl.
    + rewrite IH. destruct (first_raise rest); [reflexivity|].
      now rewrite app_assoc.
    + reflexivity.
Qed.

Lemma main_cases w :
  match sbom_root w with
  | None =>
      exists log,
        main w = Some ({| sbom_root := sbom_root w;
                          output_dir := output_dir w;
                          output_file := output_file w;
                          stdout := log |},
                       SystemExit ("SBOM root directory does not exist: "
                                     ++ PurePath.str SBOM_ROOT))
  | Some rglob =>
      match first_raise (find_sbom_files SBOM_ROOT rglob) with
      | Some e =>
          exists log,
            main w = Some ({| sbom_root := sbom_root w;
                              output_dir := true;
                              output_file := output_file w;
                              stdout := log |}, Uncaught e)
      | None =>
          match list_sort (aggregated (find_sbom_files SBOM_ROOT rglob)) with
          | Some sorted =>
              exists log,
                main w = Some ({| sbom_root := sbom_root w;
                                  output_dir := true;
                                  output_file := Some (json_dump sorted);
                                  stdout := log |}, Normal)
          | None => main w = None
          end
      end
  end.
Proof.
  unfold main. destruct (sbom_root w) as [rglob|]; [|eauto].
  match goal with
  | |- context [extract_all ?f ?l ?a] =>
      pose proof (extract_all_result f l a) as H;
      destruct (extract_all f l a) as [log r]
  end.
  simpl in H. subst r.
  destruct (first_raise _); [eauto|].
  destruct (list_sort _); eauto.
Qed.

Lemma find_sbom_files_in root rglob sbom c :
  In (sbom, c) (find_sbom_files root rglob) ->
  exists e, In e rglob /\ is_file e = true
            /\ sbom = PurePath.join_parts root (rel_parts e)
            /\ c = content e.
Proof.
  unfold find_sbom_files. rewrite in_map_iff.
  intros (e & He & Hin). apply filter_In in Hin as [Hin Hf].
  injection He as <- <-. eauto.
Qed.

Lemma in_find_sbom_files root rglob e :
  In e rglob -> is_file e = true ->
  In (PurePath.join_parts root (rel_parts e), content e)
     (find_sbom_files root rglob).
Proof.
  intros Hin Hf. unfold find_sbom_files.
  apply in_map_iff. exists e. split; [reflexivity|].
  apply filter_In. auto.
Qed.

Lemma aggregated_in sbom_files r :
  In r (aggregated sbom_files) ->
  exists sbom data rs,
    In (sbom, Parsed data) sbom_files
    /\ extract_parsed sbom data = Ok rs /\ In r rs.
Proof.
  unfold aggregated. rewrite in_flat_map.
  intros ([sbom c] & Hin & Hr). unfold records_of in Hr. simpl in Hr.
  destruct c as [err|data]; simpl in Hr; [contradiction|].
  destruct (extract_parsed sbom data) as [rs|] eqn:E; [|contradiction].
  eauto 6.
Qed.

Lemma first_raise_in sbom_files sbom data e :
  In (sbom, Parsed data) sbom_files ->
  extract_parsed sbom data = Raise e ->
  exists e', first_raise sbom_files = Some e'.
Proof.
  intros Hin He. induction sbom_files as [|f rest IH]; [contradiction|].
  simpl. destruct Hin as [->|Hin]; simpl.
  - rewrite He. eauto.
  - destruct (snd _); eauto.
Qed.

Lemma first_raise_some sbom_files e :
  first_raise sbom_files = Some e ->
  exists sbom data,
    In (sbom, Parsed data) sbom_files /\ extract_parsed sbom data = Raise e.
Proof.
  induction sbom_files as [|[sbom c] rest IH]; simpl; [discriminate|].
  destruct c as [err|data]; simpl.
  - intros H. destruct (IH H) as (s & d & Hin & He). eauto.
  - destruct (extract_parsed sbom data) eqn:E.
    + intros H. destruct (IH H) as (s & d & Hin & He). eauto.
    + intros H. injection H as <-. eauto.
Qed.

Lemma tree_like_files rglob :
  tree_like rglob = true ->
  first_raise (find_sbom_files SBOM_ROOT rglob) = None
  /\ Forall keyed (aggregated (find_sbom_files SBOM_ROOT rglob)).
Proof.
  unfold tree_like, find_sbom_files, aggregated.
  induction rglob as [|e rglob IH]; simpl; [split; [reflexivity|constructor]|].
  intros H. apply andb_true_iff in H as [He Hr].
  destruct (IH Hr) as [IH1 IH2].
  destruct (is_file e) eqn:Ef; simpl; [|auto].
  simpl in He. unfold records_of. simpl.
  destruct (content e) as [err|data]; simpl.
  - auto.
  - destruct (extract_parsed_like _ _ data
                (relative_to_join SBOM_ROOT (rel_parts e)) He)
      as (rs & -> & Hk).
    split; [exact IH1|]. apply Forall_app. auto.
Qed.

Lemma main_tree_like w rglob :
  sbom_root w = Some rglob ->
  tree_like rglob = true ->
  exists w' sorted,
    main w = Some (w', Normal)
    /\ output_file w' = Some (json_dump sorted)
    /\ first_raise (find_sbom_files SBOM_ROOT rglob) = None
    /\ stable_sort_of (aggregated (find_sbom_files SBOM_ROOT rglob)) sorted
    /\ forall l,
         stable_sort_of (aggregated (find_sbom_files SBOM_ROOT rglob)) l ->
         l = sorted.
Proof.
  intros Hroot Hlike. destruct (tree_like_files _ Hlike) as [Hnr Hk].
  pose proof (main_cases w) as Hm. rewrite Hroot, Hnr in Hm.
  destruct (list_sort_keyed _ Hk) as [sorted Hs]. rewrite Hs in Hm.
  destruct Hm as [log Hm]. eexists. exists sorted.
  split; [exact Hm|]. split; [reflexivity|]. split; [exact Hnr|].
  pose proof (list_sort_stable_sort _ _ Hs) as Hst.
  split; [exact Hst|]. intros l Hl.
  eapply stable_sort_unique; eauto.
Qed.

Lemma without_unreadable_files rglob :
  first_raise (find_sbom_files SBOM_ROOT (without_unreadable rglob))
  = first_raise (find_sbom_files SBOM_ROOT rglob)
  /\ aggregated (find_sbom_files SBOM_ROOT (without_unreadable rglob))
     = aggregated (find_sbom_files SBOM_ROOT rglob).
Proof.
  unfold without_unreadable, find_sbom_files, aggregated.
  induction rglob as [|e rglob [IH1 IH2]]; [auto|].
  cbn [filter]. destruct (unreadable e) eqn:Eu; cbn [negb].
  - unfold unreadable in Eu. apply andb_true_iff in Eu as [Ef Ec].
    rewrite Ef. cbn [map flat_map first_raise fst snd].
    unfold records_of at 2. cbn [fst snd].
    destruct (content e); [|discriminate]. simpl. auto.
  - cbn [filter]. destruct (is_file e) eqn:Ef;
      cbn [map flat_map first_raise fst snd]; rewrite ?IH1, ?IH2; auto.
Qed.

Lemma outcome_by_files w1 w2 rglob1 rglob2 :
  sbom_root w1 = Some rglob1 -> sbom_root w2 = Some rglob2 ->
  output_file w1 = output_file w2 ->
  first_raise (find_sbom_files SBOM_ROOT rglob1)
  = first_raise (find_sbom_files SBOM_ROOT rglob2) ->
  aggregated (find_sbom_files SBOM_ROOT rglob1)
  = aggregated (find_sbom_files SBOM_ROOT rglob2) ->
  outcome (main w1) = outcome (main w2).
Proof.
  intros H1 H2 Ho Hf Ha.
  pose proof (main_cases w1) as M1. pose proof (main_cases w2) as M2.
  rewrite H1 in M1. rewrite H2 in M2. rewrite <- Hf, <- Ha in M2.
  destruct (first_raise _).
  - destruct M1 as [l1 ->], M2 as [l2 ->]. simpl. now rewrite Ho.
  - destruct (list_sort _).
    + destruct M1 as [l1 ->], M2 as [l2 ->]. reflexivity.
    + now rewrite M1, M2.
Qed.

Lemma extract_all_log sbom_files : forall log acc log' all,
  extract_all sbom_files log acc = (log', Ok all) ->
  (forall line, In line log -> In line log')
  /\ (forall sbom err, In (sbom, Unreadable err) sbom_files ->
                       In (warning sbom err) log').
Proof.
  induction sbom_files as [|[sbom c] rest IH]; intros log acc log' all; simpl.
  - intros H. injection H as <- <-. split; [auto|contradiction].
  - destruct c as [err|data]; simpl.
    + intros H. apply IH in H as [Hmono Hwarn]. split.
      * intros line Hl. apply Hmono. unfold print.
        rewrite !in_app_iff. auto.
      * intros s e' [Heq|Hin]; [|now apply Hwarn].
        injection Heq as <- <-. apply Hmono. unfold print, warning.
        rewrite !in_app_iff. simpl. auto.
    + destruct (extract_parsed sbom data) as [rs|e]; [|discriminate].
      intros H. apply IH in H as [Hmono Hwarn]. split.
      * intros line Hl. apply Hmono. unfold print.
        rewrite !in_app_iff. auto.
      * intros s e' [Heq|Hin]; [discriminate|now apply Hwarn].
Qed.

Lemma main_normal_log w w' rglob :
  sbom_root w = Some rglob ->
  main w = Some (w', Normal) ->
  forall sbom err,
    In (sbom, Unreadable err) (find_sbom_files SBOM_ROOT rglob) ->
    In (warning sbom err) (stdout w').
Proof.
  intros Hroot. unfold main. rewrite Hroot.
  match goal with
  | |- context [extract_all ?f ?l ?a] =>
      destruct (extract_all f l a) as [log [all|e]] eqn:E
  end; [|discriminate].
  destruct (list_sort all); [|discriminate].
  intros H. injection H as <-. simpl. intros sbom err Hin.
  apply extract_all_log in E as [_ Hwarn].
  unfold print. apply in_app_iff. left. now apply Hwarn.
Qed.

Lemma main_os_cases os w :
  match sbom_root w with
  | None =>
      exists log,
        main_os os w
        = Some ({| sbom_root := sbom_root w;
                   output_dir := output_dir w;
                   output_file := output_file w;
                   stdout := log |},
                Ended (SystemExit ("SBOM root directory does not exist: "
                                     ++ PurePath.str SBOM_ROOT)))
  | Some rglob =>
      match (if output_dir w then None else mkdir_error os) with
      | Some msg =>
          exists log,
            main_os os w
            = Some ({| sbom_root := sbom_root w;
                       output_dir := output_dir w;
                       output_file := output_file w;
                       stdout := log |}, OSError msg)
      | None =>
          match first_raise (find_sbom_files SBOM_ROOT rglob) with
          | Some e =>
              exists log,
                main_os os w
                = Some ({| sbom_root := sbom_root w;
                           output_dir := true;
                           output_file := output_file w;
                           stdout := log |}, Ended (Uncaught e))
          | None =>
              match list_sort
                      (aggregated (find_sbom_files SBOM_ROOT rglob)) with
              | None => main_os os w = None
              | Some sorted =>
                  exists log,
                    main_os os w
                    = Some
                        (match open_error os, dump_error os with
                         | Some msg, _ =>
                             ({| sbom_root := sbom_root w;
                                 output_dir := true;
                                 output_file := output_file w;
                                 stdout := log |}, OSError msg)
                         | None, Some (partial, msg) =>
                             ({| sbom_root := sbom_root w;
                                 output_dir := true;
                                 output_file := Some partial;
                                 stdout := log |}, OSError msg)
                         | None, None =>
                             ({| sbom_root := sbom_root w;
                                 output_dir := true;
                                 output_file := Some (json_dump sorted);
                                 stdout := log |}, Ended Normal)
                         end)
              end
          end
      end
  end.
Proof.
  unfold main_os. destruct (sbom_root w) as [rglob|]; [|eauto].
  destruct (if output_dir w then None else mkdir_error os); [eauto|].
  match goal with
  | |- context [extract_all ?f ?l ?a] =>
      pose proof (extract_all_result f l a) as H;
      destruct (extract_all f l a) as [log r]
  end.
  simpl in H. subst r.
  destruct (first_raise _); [eauto|].
  destruct (list_sort _); [|reflexivity].
  destruct (open_error os); [eauto|].
  destruct (dump_error os) as [[partial msg]|]; eauto.
Qed.

(** [main] is [main_os] when the three writes succeed. *)
Lemma main_os_writable os w :
  writable os w ->
  main_os os w = option_map (fun p => (fst p, Ended (snd p))) (main w).
Proof.
  intros (Hmk & Hop & Hdu). unfold main_os, main.
  destruct (sbom_root w) as [rglob|]; [|reflexivity].
  assert (Hm : (if output_dir w then None else mkdir_error os) = None)
    by (destruct Hmk as [-> | ->]; [reflexivity|now destruct (output_dir w)]).
  rewrite Hm, Hop, Hdu.
  match goal with
  | |- context [extract_all ?f ?l ?a] =>
      destruct (extract_all f l a) as [log [all|e]]
  end; [|reflexivity].
  destruct (list_sort all); reflexivity.
Qed.

Lemma main_preserves_root w w' t : main w = Some (w', t) -> sbom_root w' = sbom_root w.
Proof.
  intros H. pose proof (main_cases w) as M. rewrite H in M.
  destruct (sbom_root w) as [rglob|] eqn:Hr.
  - destruct (first_raise _).
    + destruct M as [log M]. injection M as -> _. now rewrite ?Hr.
    + destruct (list_sort _); [|discriminate].
      destruct M as [log M]. injection M as -> _. now rewrite ?Hr.
  - destruct M as [log M]. injection M as -> _. now rewrite ?Hr.
Qed.

(* ===================================================================== *)
(** ** Properties of the run *)
(* ===================================================================== *)

(** C1. For every tree whose discovered files are unreadable or of the
    SBOM shape, the run completes and the array it writes is the stable
    sort, by the lexicographic str tuple (project_name, component_name,
    component_version), of the concatenation of the per-file extraction
    results in discovery order: it is a permutation of that concatenation
    (every extracted record appears exactly once), it is non-decreasing in
    the key, records with equal keys keep their aggregation order, and it
    is the only list with these three properties. *)
Theorem main_emits_stable_sort (w : world) (rglob : list dir_entry)
    (Hroot : sbom_root w = Some rglob) (Hlike : tree_like rglob = true) :
  exists w' sorted,
    main w = Some (w', Normal)
    /\ output_file w' = Some (json_dump sorted)
    /\ first_raise (find_sbom_files SBOM_ROOT rglob) = None
    /\ Permutation (aggregated (find_sbom_files SBOM_ROOT rglob)) sorted
    /\ Sorted record_le sorted
    /\ (forall k, filter (has_key k) sorted
                  = filter (has_key k)
                      (aggregated (find_sbom_files SBOM_ROOT rglob)))
    /\ (forall l,
          stable_sort_of (aggregated (find_sbom_files SBOM_ROOT rglob)) l ->
          l = sorted).
Proof.
  destruct (main_tree_like w rglob Hroot Hlike)
    as (w' & sorted & Hm & Ho & Hnr & (Hp & Hs & Hf) & Hu).
  exists w', sorted. repeat (split; [assumption|]). exact Hu.
Qed.


(** C3. The project name of every record of a discovered file is
    [metadata.component.name] when that is present and non-empty (a
    non-empty str in particular); otherwise it is derived from the path
    below the SBOM root: the last part without its extension, all parts
    joined with "/", so [teams/alpha/sbom.json] gives [teams/alpha/sbom];
    for a path that is not below the root the derivation gives the stem
    of the file name. *)
Theorem project_name_declared_or_inferred (rel : list string) (data : json)
    (rs : list component)
    (Hok : extract_parsed (PurePath.join_parts SBOM_ROOT rel) data = Ok rs) :
  Forall (fun r =>
            project_name r
            = match declared_project_name data with
              | Some v =>
                  if Py.truthy v then v
                  else JStr (infer_project_name_from_path
                               (PurePath.join_parts SBOM_ROOT rel))
              | None =>
                  JStr (infer_project_name_from_path
                          (PurePath.join_parts SBOM_ROOT rel))
              end) rs
  /\ (forall s, s <> "" -> Py.truthy (JStr s) = true)
  /\ (forall dirs name,
        infer_project_name_from_path
          (PurePath.join_parts SBOM_ROOT (dirs ++ [name])%list)
        = PyStr.join "/" (dirs ++ [PurePath.stem_of_name name])%list)
  /\ (forall base, base <> "" ->
        PurePath.stem_of_name (base ++ ".json") = base)
  /\ infer_project_name_from_path
       (PurePath.join_parts SBOM_ROOT ["teams"; "alpha"; "sbom.json"])
     = "teams/alpha/sbom"
  /\ (forall sbom, PurePath.relative_to sbom SBOM_ROOT = None ->
        infer_project_name_from_path sbom = PurePath.stem sbom).
Proof.
  split; [|split; [|split; [|split; [|split]]]].
  - apply extract_parsed_from_file in Hok.
    eapply Forall_impl; [|exact Hok]. intros r [Hp _]. exact Hp.
  - intros s Hs. simpl. destruct (String.eqb_spec s ""); [contradiction|reflexivity].
  - intros dirs name. unfold infer_project_name_from_path.
    rewrite relative_to_join. unfold PurePath.parts. simpl.
    destruct (dirs ++ [name])%list eqn:E.
    + destruct dirs; discriminate.
    + rewrite <- E, removelast_last, last_last. reflexivity.
  - apply stem_of_name_json.
  - unfold infer_project_name_from_path. rewrite relative_to_join.
    reflexivity.
  - intros sbom H. unfold infer_project_name_from_path. now rewrite H.
Qed.

(** C4. A file whose open, decode or parse fails makes extraction print
    the warning that names the file and the error and return no record;
    the run goes on: the other files are extracted as if the file were
    absent, so the output file and the exit are those of the tree without
    it, and when the other files are of the SBOM shape the run completes
    with their records written in sorted order and the warning printed. *)
Theorem unreadable_file_contributes_nothing (w : world)
    (rglob : list dir_entry) (Hroot : sbom_root w = Some rglob) :
  (forall sbom err,
      extract_components_from_sbom sbom (Unreadable err)
      = ([warning sbom err], Ok []))
  /\ aggregated (find_sbom_files SBOM_ROOT rglob)
     = aggregated (find_sbom_files SBOM_ROOT (without_unreadable rglob))
  /\ outcome (main w)
     = outcome (main {| sbom_root := Some (without_unreadable rglob);
                        output_dir := output_dir w;
                        output_file := output_file w;
                        stdout := stdout w |})
  /\ (tree_like (without_unreadable rglob) = true ->
      exists w' sorted,
        main w = Some (w', Normal)
        /\ exit_code Normal = 0%Z
        /\ output_file w' = Some (json_dump sorted)
        /\ stable_sort_of
             (aggregated (find_sbom_files SBOM_ROOT (without_unreadable rglob)))
             sorted
        /\ forall e err, In e rglob -> is_file e = true ->
             content e = Unreadable err ->
             In (warning (PurePath.join_parts SBOM_ROOT (rel_parts e)) err)
                (stdout w')).
Proof.
  destruct (without_unreadable_files rglob) as [Hf Ha].
  split; [reflexivity|]. split; [now rewrite Ha|]. split.
  - eapply outcome_by_files; simpl; eauto.
  - intros Hlike.
    destruct (tree_like_files _ Hlike) as [Hnr Hk].
    rewrite Hf in Hnr. rewrite Ha in *.
    pose proof (main_cases w) as Hm. rewrite Hroot, Hnr in Hm.
    destruct (list_sort_keyed _ Hk) as [sorted Hs]. rewrite Hs in Hm.
    destruct Hm as [log Hm]. eexists. exists sorted.
    split; [exact Hm|]. split; [reflexivity|]. split; [reflexivity|].
    split; [now apply list_sort_stable_sort|].
    intros e err Hin Hfile Hc.
    eapply main_normal_log; [exact Hroot|exact Hm|].
    rewrite <- Hc. now apply in_find_sbom_files.
Qed.

(** C5, as the code has it. A missing root ends the run with
    [SystemExit], exit code 1, before the output directory or file is
    touched. With an existing root and no regular [.json] file the run
    completes with exit code 0 and writes [[]], and over files of the
    SBOM shape it completes with exit code 0 and writes the sorted
    records, in both cases provided the writes of lines 94 and 108-109
    succeed. Exit code 0 means the run completed. The exit code is 1 not
    only for a missing root: it is 1 when extraction raises on a parsed
    document that breaks the expected shape, and when the output
    directory cannot be created or the output file cannot be opened; in
    these cases the output file is left as it was. It is 1 as well when
    the dump fails, which leaves a partial file. *)
Theorem exit_code_of_run (os : output_os) (w : world) :
  (sbom_root w = None ->
   exists w',
     main_os os w
     = Some (w', Ended (SystemExit ("SBOM root directory does not exist: "
                                      ++ PurePath.str SBOM_ROOT)))
     /\ os_exit_code
          (Ended (SystemExit ("SBOM root directory does not exist: "
                                ++ PurePath.str SBOM_ROOT))) = 1%Z
     /\ output_file w' = output_file w /\ output_dir w' = output_dir w)
  /\ (forall rglob, sbom_root w = Some rglob ->
        find_sbom_files SBOM_ROOT rglob = [] -> writable os w ->
        exists w', main_os os w = Some (w', Ended Normal)
                   /\ os_exit_code (Ended Normal) = 0%Z
                   /\ output_file w' = Some "[]")
  /\ (forall rglob, sbom_root w = Some rglob ->
        tree_like rglob = true -> writable os w ->
        exists w' sorted,
          main_os os w = Some (w', Ended Normal)
          /\ emitted w = Some sorted
          /\ output_file w' = Some (json_dump sorted))
  /\ (forall w' t, main_os os w = Some (w', t) ->
        (os_exit_code t = 0%Z <-> t = Ended Normal))
  /\ (forall rglob e data, sbom_root w = Some rglob ->
        In e rglob -> is_file e = true -> content e = Parsed data ->
        expected_shape data = false ->
        output_dir w = true \/ mkdir_error os = None ->
        exists w' x,
          main_os os w = Some (w', Ended (Uncaught x))
          /\ os_exit_code (Ended (Uncaught x)) = 1%Z
          /\ output_file w' = output_file w)
  /\ (forall rglob msg, sbom_root w = Some rglob ->
        output_dir w = false -> mkdir_error os = Some msg ->
        exists w',
          main_os os w = Some (w', OSError msg)
          /\ os_exit_code (OSError msg) = 1%Z
          /\ output_file w' = output_file w /\ output_dir w' = false)
  /\ (forall rglob msg, sbom_root w = Some rglob ->
        tree_like rglob = true ->
        output_dir w = true \/ mkdir_error os = None ->
        open_error os = Some msg ->
        exists w',
          main_os os w = Some (w', OSError msg)
          /\ os_exit_code (OSError msg) = 1%Z
          /\ output_file w' = output_file w)
  /\ (forall rglob partial msg, sbom_root w = Some rglob ->
        tree_like rglob = true ->
        output_dir w = true \/ mkdir_error os = None ->
        open_error os = None -> dump_error os = Some (partial, msg) ->
        exists w',
          main_os os w = Some (w', OSError msg)
          /\ os_exit_code (OSError msg) = 1%Z
          /\ output_file w' = Some partial).
Proof.
  pose proof (main_os_cases os w) as M.
  assert (Hmk : output_dir w = true \/ mkdir_error os = None ->
                (if output_dir w then None else mkdir_error os) = None).
  { intros [-> | ->]; [reflexivity|now destruct (output_dir w)]. }
  split; [|split; [|split; [|split; [|split; [|split; [|split]]]]]].
  - intros Hroot. rewrite Hroot in M. destruct M as [log M].
    eexists. split; [exact M|]. repeat split.
  - intros rglob Hroot Hnil Hw.
    rewrite (main_os_writable os w Hw).
    pose proof (main_cases w) as M'. rewrite Hroot, Hnil in M'.
    simpl in M'. destruct M' as [log ->]. simpl. eauto.
  - intros rglob Hroot Hlike Hw.
    rewrite (main_os_writable os w Hw).
    unfold emitted. rewrite Hroot.
    destruct (tree_like_files _ Hlike) as [Hnr Hk].
    destruct (list_sort_keyed _ Hk) as [sorted Hs].
    pose proof (main_cases w) as M'. rewrite Hroot, Hnr, Hs in M'.
    destruct M' as [log ->]. rewrite Hnr, Hs. simpl. eauto.
  - intros w' t Hrun. destruct t as [[| |]|]; simpl;
      split; try discriminate; reflexivity.
  - intros rglob e data Hroot Hin Hfile Hparsed Hshape Hdir.
    rewrite Hroot, (Hmk Hdir) in M.
    destruct (extract_parsed_shape
                (PurePath.join_parts SBOM_ROOT (rel_parts e)) data Hshape)
      as [x Hx].
    pose proof (in_find_sbom_files SBOM_ROOT rglob e Hin Hfile) as Hf.
    rewrite Hparsed in Hf.
    destruct (first_raise_in _ _ _ _ Hf Hx) as [x' Hx'].
    rewrite Hx' in M. destruct M as [log M].
    eexists. exists x'. split; [exact M|]. split; reflexivity.
  - intros rglob msg Hroot Hdir Hmsg.
    rewrite Hroot, Hdir, Hmsg in M. destruct M as [log M].
    eexists. split; [exact M|]. simpl. auto.
  - intros rglob msg Hroot Hlike Hdir Hopen.
    rewrite Hroot, (Hmk Hdir) in M.
    destruct (tree_like_files _ Hlike) as [Hnr Hk].
    destruct (list_sort_keyed _ Hk) as [sorted Hs].
    rewrite Hnr, Hs, Hopen in M. destruct M as [log M].
    eexists. split; [exact M|]. split; reflexivity.
  - intros rglob partial msg Hroot Hlike Hdir Hopen Hdump.
    rewrite Hroot, (Hmk Hdir) in M.
    destruct (tree_like_files _ Hlike) as [Hnr Hk].
    destruct (list_sort_keyed _ Hk) as [sorted Hs].
    rewrite Hnr, Hs, Hopen, Hdump in M. destruct M as [log M].
    eexists. split; [exact M|]. split; reflexivity.
Qed.

(** C6. A component object without [version], [group], [purl], [type]
    and [licenses] gives, without raising, a record whose version, group,
    purl and type are the empty str and whose licenses are the empty
    list. *)
Theorem missing_fields_default (rel : list string) (pn pv pg : json)
    (results : list component) (m : list (string * json))
    (Hversion : Py.lookup "version" m = None)
    (Hgroup : Py.lookup "group" m = None)
    (Hpurl : Py.lookup "purl" m = None)
    (Htype : Py.lookup "type" m = None)
    (Hlicenses : Py.lookup "licenses" m = None) :
  component_step (PurePath.join_parts SBOM_ROOT rel) pn pv pg results (JObj m)
  = Ok (results ++
        [ {| project_name := pn;
             project_version := pv;
             project_group := pg;
             sbom_path := PurePath.as_posix (PurePath.mk "" rel);
             component_name := field "name" m;
             component_version := JStr "";
             component_group := JStr "";
             component_type := JStr "";
             purl := JStr "";
             licenses := [] |} ])%list.
Proof.
  unfold component_step. simpl.
  rewrite Hversion, Hgroup, Hpurl, Htype, Hlicenses, relative_to_join.
  reflexivity.
Qed.

(** C10. A [licenses] field that is present but false-y (null, false, 0,
    an empty str, list or dict) is read as the empty sequence: the record
    has no licenses and nothing is raised. *)
Theorem falsy_licenses_are_empty (rel : list string) (pn pv pg : json)
    (results : list component) (m : list (string * json)) (v : json)
    (Hlicenses : Py.lookup "licenses" m = Some v)
    (Hfalsy : Py.truthy v = false) :
  exists r,
    component_step (PurePath.join_parts SBOM_ROOT rel) pn pv pg results
                   (JObj m) = Ok (results ++ [r])%list
    /\ licenses r = [].
Proof.
  unfold component_step. simpl. rewrite Hlicenses. unfold Py.or_.
  rewrite Hfalsy. simpl. rewrite relative_to_join. simpl.
  eexists. split; reflexivity.
Qed.

(** C8. The output depends on the tree alone: two runs over the same
    enumeration of the same files end the same way and, when they
    complete, leave the same bytes in the output file, whatever the
    output directory, the output file and the console held before; and a
    second run right after a first leaves the output file as the first
    left it. *)
Theorem runs_are_reproducible (w1 w2 w1' : world) (t : termination)
    (Htree : sbom_root w1 = sbom_root w2)
    (Hrun : main w1 = Some (w1', t)) :
  (exists w2', main w2 = Some (w2', t)
               /\ (t = Normal -> output_file w2' = output_file w1'))
  /\ (exists w1'', main w1' = Some (w1'', t)
                   /\ output_file w1'' = output_file w1').
Proof.
  assert (Hgen : forall v, sbom_root v = sbom_root w1 ->
            exists v', main v = Some (v', t)
                       /\ (t = Normal -> output_file v' = output_file w1')
                       /\ (t <> Normal -> output_file v' = output_file v)).
  { intros v Hv. pose proof (main_cases w1) as M1.
    pose proof (main_cases v) as M2. rewrite Hv in M2.
    destruct (sbom_root w1) as [rglob|].
    - destruct (first_raise _).
      + destruct M1 as [l1 M1], M2 as [l2 M2]. rewrite M1 in Hrun.
        injection Hrun as Hw Ht. subst w1' t. rewrite M2.
        eexists. split; [reflexivity|]. split; [discriminate|reflexivity].
      + destruct (list_sort _); [|congruence].
        destruct M1 as [l1 M1], M2 as [l2 M2]. rewrite M1 in Hrun.
        injection Hrun as Hw Ht. subst w1' t. rewrite M2.
        eexists. split; [reflexivity|]. split; [reflexivity|congruence].
    - destruct M1 as [l1 M1], M2 as [l2 M2]. rewrite M1 in Hrun.
      injection Hrun as Hw Ht. subst w1' t. rewrite M2.
      eexists. split; [reflexivity|]. split; [discriminate|reflexivity]. }
  split.
  - destruct (Hgen w2 (eq_sym Htree)) as (w2' & H2 & Ho & _). eauto.
  - destruct (Hgen w1' (main_preserves_root _ _ _ Hrun)) as (v & Hv & Hn & Ha).
    exists v. split; [exact Hv|].
    destruct t; [apply Hn; reflexivity|apply Ha; discriminate|apply Ha; discriminate].
Qed.

(** C9. Extraction from a parsed document completes only when the
    document is an object, its [metadata] when present is an object, every
    entry of its [components] array is an object and every entry of each
    [licenses] array is an object. On a parsed document that breaks this
    shape extraction raises without printing a warning, and the run that
    discovers such a file ends with an uncaught exception, exit code 1,
    and writes no output. *)
Theorem extraction_needs_expected_shape (w : world) (rglob : list dir_entry)
    (e : dir_entry) (data : json)
    (Hroot : sbom_root w = Some rglob)
    (Hin : In e rglob) (Hfile : is_file e = true)
    (Hparsed : content e = Parsed data)
    (Hshape : expected_shape data = false) :
  (forall sbom data' rs,
      extract_components_from_sbom sbom (Parsed data') = ([], Ok rs) ->
      expected_shape data' = true)
  /\ (forall sbom, exists x,
        extract_components_from_sbom sbom (Parsed data) = ([], Raise x))
  /\ (exists w' x,
        main w = Some (w', Uncaught x)
        /\ exit_code (Uncaught x) = 1%Z
        /\ output_file w' = output_file w).
Proof.
  split; [|split].
  - intros sbom data' rs H. destruct (expected_shape data') eqn:E; [reflexivity|].
    destruct (extract_parsed_shape sbom data' E) as [x Hx].
    simpl in H. rewrite Hx in H. discriminate.
  - intros sbom. destruct (extract_parsed_shape sbom data Hshape) as [x Hx].
    exists x. simpl. now rewrite Hx.
  - destruct (extract_parsed_shape
                (PurePath.join_parts SBOM_ROOT (rel_parts e)) data Hshape)
      as [x Hx].
    pose proof (in_find_sbom_files SBOM_ROOT rglob e Hin Hfile) as Hf.
    rewrite Hparsed in Hf.
    destruct (first_raise_in _ _ _ _ Hf Hx) as [x' Hx'].
    pose proof (main_cases w) as M. rewrite Hroot, Hx' in M.
    destruct M as [log M]. eexists. exists x'.
    split; [exact M|]. split; reflexivity.
Qed.

(** C7, as the code has it. Every record extracted from a discovered
    file has as [sbom_path] the parts of that file below the SBOM root
    joined with "/": it never begins with "/", so it is never absolute,
    and it holds a backslash exactly when the name of the file or of a
    directory above it does, as POSIX names may. The records a run sorts
    and writes are the records extracted from its discovered files, each
    with the path of its own file. *)
Theorem sbom_path_is_relative (rglob : list dir_entry) (e : dir_entry)
    (data : json) (rs : list component) (r : component)
    (Hwalk : walk_ok rglob = true)
    (He : In e rglob) (Hfile : is_file e = true)
    (Hparsed : content e = Parsed data)
    (Hok : extract_parsed (PurePath.join_parts SBOM_ROOT (rel_parts e)) data
           = Ok rs)
    (Hr : In r rs) :
  (sbom_path r = PyStr.join "/" (rel_parts e)
   /\ PyStr.starts_with "/"%char (sbom_path r) = false
   /\ PyStr.contains "\"%char (sbom_path r)
      = existsb (PyStr.contains "\"%char) (rel_parts e))
  /\ In r (aggregated (find_sbom_files SBOM_ROOT rglob))
  /\ (forall r', In r' (aggregated (find_sbom_files SBOM_ROOT rglob)) ->
        exists e' data' rs',
          In e' rglob /\ is_file e' = true /\ content e' = Parsed data'
          /\ extract_parsed
               (PurePath.join_parts SBOM_ROOT (rel_parts e')) data' = Ok rs'
          /\ In r' rs'
          /\ sbom_path r' = PyStr.join "/" (rel_parts e'))
  /\ (forall w w', sbom_root w = Some rglob -> main w = Some (w', Normal) ->
        exists sorted,
          output_file w' = Some (json_dump sorted)
          /\ Permutation (aggregated (find_sbom_files SBOM_ROOT rglob))
                         sorted).
Proof.
  assert (Hpath : forall e0 data0 rs0 r0,
             In e0 rglob ->
             extract_parsed
               (PurePath.join_parts SBOM_ROOT (rel_parts e0)) data0 = Ok rs0 ->
             In r0 rs0 ->
             sbom_path r0 = PyStr.join "/" (rel_parts e0)
             /\ PyStr.starts_with "/"%char (sbom_path r0) = false
             /\ PyStr.contains "\"%char (sbom_path r0)
                = existsb (PyStr.contains "\"%char) (rel_parts e0)).
  { intros e0 data0 rs0 r0 He0 Hx Hr0.
    apply extract_parsed_from_file in Hx. rewrite Forall_forall in Hx.
    destruct (Hx r0 Hr0) as (_ & rel & Hrel & Hp).
    rewrite relative_to_join in Hrel. injection Hrel as <-.
    unfold walk_ok in Hwalk. rewrite forallb_forall in Hwalk.
    specialize (Hwalk e0 He0).
    destruct (rel_parts e0) as [|p parts] eqn:Hparts; [discriminate|].
    rewrite as_posix_relative in Hp by discriminate.
    rewrite Hp. split; [reflexivity|]. split.
    - apply starts_with_join. simpl in Hwalk.
      now apply andb_true_iff in Hwalk as [Hp' _].
    - apply contains_join. discriminate. }
  split; [eapply Hpath; eassumption|]. split; [|split].
  - unfold aggregated. apply in_flat_map.
    exists (PurePath.join_parts SBOM_ROOT (rel_parts e), content e).
    split; [now apply in_find_sbom_files|].
    unfold records_of. simpl. rewrite Hparsed. simpl. now rewrite Hok.
  - intros r' Hr'.
    apply aggregated_in in Hr' as (sbom & data' & rs' & Hf & Hx & Hrs).
    apply find_sbom_files_in in Hf as (e' & He' & Hfile' & -> & Hc).
    exists e', data', rs'. repeat (split; [auto|]).
    eapply Hpath; eassumption.
  - intros w w' Hroot Hrun.
    pose proof (main_cases w) as M. rewrite Hroot in M.
    destruct (first_raise _).
    { destruct M as [log M]. rewrite M in Hrun. discriminate. }
    destruct (list_sort _) as [sorted|] eqn:Hs; [|congruence].
    destruct M as [log M]. rewrite M in Hrun. injection Hrun as Hw.
    subst w'. exists sorted. split; [reflexivity|].
    now apply list_sort_stable_sort in Hs as (Hp & _ & _).
Qed.

(* ===================================================================== *)
(** ** Further properties of discovery, extraction and the run *)
(* ===================================================================== *)






(** X3. Sorting what a run has written changes nothing: the emitted list
    is a fixed point of [list.sort] with the key of line 106, and it has
    as many records as the files contributed. *)
Theorem sort_is_idempotent (l sorted : list component)
    (Hsort : list_sort l = Some sorted) :
  list_sort sorted = Some sorted
  /\ List.length sorted = List.length l.
Proof.
  pose proof (list_sort_stable_sort _ _ Hsort) as (Hp & Hs & Hf).
  assert (Hk : Forall keyed sorted).
  { unfold list_sort in Hsort.
    destruct (keys_of l) as [kl|] eqn:E; [|discriminate].
    apply keys_of_some_keyed in E. rewrite Forall_forall in *.
    intros x Hx. apply E.
    eapply Permutation_in; [apply Permutation_sym, Hp|exact Hx]. }
  split; [|symmetry; now apply Permutation_length].
  destruct (list_sort_keyed _ Hk) as [s' Hs']. rewrite Hs'. f_equal.
  apply (stable_sort_unique sorted); auto.
  - now apply list_sort_stable_sort.
  - repeat split; auto.
Qed.

(** X4. The output file holds the empty JSON array exactly when the run
    extracted no record: a non-empty array starts with a line break
    after the bracket. *)
Theorem empty_array_iff_no_record (w w' : world)
    (Hrun : main w = Some (w', Normal)) :
  output_file w' = Some "[]" <-> emitted w = Some [].
Proof.
  pose proof (main_cases w) as M. unfold emitted.
  destruct (sbom_root w) as [rglob|].
  - destruct (first_raise _).
    + destruct M as [log M]. rewrite M in Hrun. discriminate.
    + destruct (list_sort _) as [sorted|]; [|congruence].
      destruct M as [log M]. rewrite M in Hrun. injection Hrun as <-.
      simpl. destruct sorted as [|x sorted].
      * split; reflexivity.
      * split; intros H; [|discriminate].
        unfold json_dump, newline_indent in H. simpl in H. discriminate.
  - destruct M as [log M]. rewrite M in Hrun. discriminate.
Qed.

Lemma license_loop_added entries : forall acc out,
  for_each license_step acc entries = Ok out ->
  exists added,
    out = (acc ++ added)%list
    /\ Forall (fun l => Py.truthy l = true) added
    /\ List.length added <= List.length entries.
Proof.
  induction entries as [|l entries IH]; intros acc out; simpl.
  - intros H. injection H as <-. exists []. rewrite app_nil_r. auto.
  - destruct l as [| | | | | |lm]; try discriminate.
    rewrite license_step_dict. cbn [bind]. intros H.
    destruct (IH _ _ H) as (added & -> & Ht & Hlen).
    exists (identifiers [JObj lm] ++ added)%list.
    rewrite app_assoc. split; [reflexivity|].
    unfold identifiers, license_identifier, present_nonempty in *.
    cbn [flat_map]. rewrite app_nil_r.
    destruct (Py.lookup "license" lm) as [[| | | | | |lic]|];
      try (simpl; split; [exact Ht|lia]).
    destruct (Py.lookup "id" lic) as [i|]; [destruct (Py.truthy i) eqn:Ei|].
    + simpl. split; [constructor; assumption|lia].
    + destruct (Py.lookup "name" lic) as [n|];
        [destruct (Py.truthy n) eqn:En|]; simpl;
        (split; [try constructor; assumption|lia]).
    + destruct (Py.lookup "name" lic) as [n|];
        [destruct (Py.truthy n) eqn:En|]; simpl;
        (split; [try constructor; assumption|lia]).
Qed.

(** X5. No record lists an empty license: every identifier appended at
    line 51 is truthy, whatever the document holds, and one entry adds at
    most one identifier, so a component with [n] license entries has at
    most [n] licenses. *)
Theorem licenses_are_truthy (sbom : PurePath.t) (pn pv pg : json)
    (results out : list component) (m : list (string * json))
    (entries : list json)
    (Hlic : Py.lookup "licenses" m = Some (JArr entries))
    (Hok : component_step sbom pn pv pg results (JObj m) = Ok out) :
  exists r,
    out = (results ++ [r])%list
    /\ Forall (fun l => Py.truthy l = true) (licenses r)
    /\ List.length (licenses r) <= List.length entries.
Proof.
  apply component_step_ok_inv in Hok
    as (m' & entries' & lics & rel & Hm & Hit & Hloop & _ & ->).
  injection Hm as <-. rewrite Hlic, iter_or_array in Hit.
  injection Hit as <-.
  apply license_loop_added in Hloop as (added & -> & Ht & Hlen).
  eexists. split; [reflexivity|]. simpl. auto.
Qed.

Lemma substring_nonempty i a s :
  0 < i -> String.substring 0 i (String a s) <> "".
Proof. destruct i; [lia|]. simpl. discriminate. Qed.

Lemma stem_of_name_nonempty nm :
  nm <> "" -> PurePath.stem_of_name nm <> "".
Proof.
  intros H. unfold PurePath.stem_of_name.
  destruct (PyStr.rfind "."%char nm) as [i|]; [|exact H].
  destruct (Nat.ltb 0 i) eqn:E; simpl; [|exact H].
  destruct (Nat.ltb i (String.length nm - 1)); [|exact H].
  destruct nm; [congruence|]. apply substring_nonempty.
  now apply Nat.ltb_lt.
Qed.

Lemma join_last_nonempty dirs s : s <> "" -> PyStr.join "/" (dirs ++ [s])%list <> "".
Proof.
  intros H. induction dirs as [|d dirs IH]; [exact H|].
  simpl. destruct (dirs ++ [s])%list eqn:E.
  - destruct dirs; discriminate.
  - destruct d; simpl; discriminate.
Qed.

(** X6. Every record of a discovered file has a non-empty project name:
    a declared name is used only when truthy, and the name derived from
    the path is never the empty str, because the stem of a file name is
    a non-empty prefix of it. *)
Theorem project_name_is_never_empty (dirs : list string) (name : string)
    (data : json) (rs : list component)
    (Hname : name <> "")
    (Hok : extract_parsed
             (PurePath.join_parts SBOM_ROOT (dirs ++ [name])%list) data
           = Ok rs) :
  infer_project_name_from_path
    (PurePath.join_parts SBOM_ROOT (dirs ++ [name])%list) <> ""
  /\ Forall (fun r => Py.truthy (project_name r) = true
                      /\ project_name r <> JStr "") rs.
Proof.
  assert (Hinf : infer_project_name_from_path
                   (PurePath.join_parts SBOM_ROOT (dirs ++ [name])%list)
                 <> "").
  { unfold infer_project_name_from_path. rewrite relative_to_join.
    unfold PurePath.parts. simpl.
    destruct (dirs ++ [name])%list eqn:E; [destruct dirs; discriminate|].
    rewrite <- E, removelast_last, last_last.
    apply join_last_nonempty. now apply stem_of_name_nonempty. }
  split; [exact Hinf|].
  apply extract_parsed_from_file in Hok.
  eapply Forall_impl; [|exact Hok]. intros r [Hp _]. rewrite Hp.
  unfold project_name_for.
  assert (Ht : Py.truthy
                 (JStr (infer_project_name_from_path
                          (PurePath.join_parts SBOM_ROOT
                             (dirs ++ [name])%list))) = true).
  { simpl. destruct (String.eqb_spec
                       (infer_project_name_from_path
                          (PurePath.join_parts SBOM_ROOT
                             (dirs ++ [name])%list)) "");
      [contradiction|reflexivity]. }
  destruct (declared_project_name data) as [v|].
  - destruct (Py.truthy v) eqn:Ev.
    + split; [exact Ev|]. intros ->. discriminate.
    + split; [exact Ht|]. congruence.
  - split; [exact Ht|]. congruence.
Qed.

Lemma extract_parsed_inv sbom data rs :
  extract_parsed sbom data = Ok rs ->
  exists m pn pv pg items,
    data = JObj m
    /\ Py.iter (match Py.lookup "components" m with
                | Some v => v
                | None => JArr []
                end) = Ok items
    /\ for_each (component_step sbom pn pv pg) [] items = Ok rs.
Proof.
  destruct data as [| | | | | |m]; try discriminate.
  unfold extract_parsed. cbn [Py.get bind].
  repeat match goal with
  | |- bind ?r _ = Ok _ -> _ =>
      let E := fresh "E" in
      destruct r eqn:E; cbn [bind]; [|discriminate]
  end.
  intros H. eauto 10.
Qed.

Lemma component_loop_records sbom pn pv pg items : forall acc out,
  for_each (component_step sbom pn pv pg) acc items = Ok out ->
  exists rel rs,
    out = (acc ++ rs)%list
    /\ (items <> [] -> PurePath.relative_to sbom SBOM_ROOT = Some rel)
    /\ Forall2 (record_of_component pn pv pg (PurePath.as_posix rel)) items rs.
Proof.
  induction items as [|c items IH]; intros acc out; simpl.
  - intros H. injection H as <-. exists (PurePath.mk "" []), [].
    rewrite app_nil_r. split; [reflexivity|]. split; [congruence|constructor].
  - destruct (component_step sbom pn pv pg acc c) as [s1|] eqn:E;
      cbn [bind]; [|discriminate].
    intros H. destruct (IH _ _ H) as (rel' & rs & -> & Hrel' & Hall).
    apply component_step_ok_inv in E
      as (m & entries & lics & rel & -> & _ & _ & Hrel & ->).
    exists rel. eexists. rewrite <- app_assoc. split; [reflexivity|].
    split; [auto|]. constructor.
    + exists m. repeat split.
    + destruct items as [|c' items]; [inversion Hall; constructor|].
      assert (Heq : rel' = rel).
      { assert (Some rel' = Some rel)
          by (rewrite <- Hrel; symmetry; apply Hrel'; discriminate).
        congruence. }
      now subst rel'.
Qed.

(** X7. Extraction yields one record per entry of [components], in
    document order: the i-th record carries the name, version, group,
    type and purl of the i-th component (the empty str for a missing
    field), and all records of one file share the project name, version
    and group and the relative path. *)
Theorem one_record_per_component (sbom : PurePath.t)
    (m : list (string * json)) (items : list json) (rs : list component)
    (Hcomponents : Py.lookup "components" m = Some (JArr items))
    (Hok : extract_parsed sbom (JObj m) = Ok rs) :
  List.length rs = List.length items
  /\ exists pn pv pg path,
       Forall2 (record_of_component pn pv pg path) items rs.
Proof.
  apply extract_parsed_inv in Hok as (m' & pn & pv & pg & items' & Hm & Hit & Hloop).
  injection Hm as <-. rewrite Hcomponents in Hit. injection Hit as <-.
  apply component_loop_records in Hloop as (rel & rs' & Hrs & _ & Hall).
  simpl in Hrs. subst rs'.
  split; [symmetry; eapply Forall2_length, Hall|eauto 6].
Qed.

(* ---- which documents extraction accepts ---- *)

Lemma licenses_ok_iter v :
  licenses_ok v = true ->
  exists entries,
    Py.iter (Py.or_ v (JArr [])) = Ok entries
    /\ forallb Py.is_dict entries = true.
Proof.
  unfold licenses_ok, Py.or_. destruct (Py.truthy v) eqn:E.
  - destruct v; try discriminate. simpl. eauto.
  - intros _. simpl. eauto.
Qed.

Lemma licenses_not_ok_raises v :
  licenses_ok v = false ->
  exists e,
    (entries <- Py.iter (Py.or_ v (JArr [])) ;;
     for_each license_step [] entries) = Raise e.
Proof.
  unfold licenses_ok, Py.or_. destruct (Py.truthy v) eqn:E; [|discriminate].
  destruct v as [| | | |s|entries|kv]; simpl; intros H; eauto.
  - destruct s as [|a s]; [discriminate|]. simpl. eauto.
  - now apply license_loop_raises.
  - destruct kv as [|[k x] kv]; [discriminate|]. simpl. eauto.
Qed.

Lemma component_ok_step rel pn pv pg results c :
  component_ok c = true ->
  exists r,
    component_step (PurePath.join_parts SBOM_ROOT rel) pn pv pg results c
    = Ok (results ++ [r])%list.
Proof.
  destruct c as [| | | | | |m]; try discriminate.
  unfold component_ok, optional, component_step. cbn [Py.get bind].
  intros H.
  assert (Hl : licenses_ok (match Py.lookup "licenses" m with
                            | Some x => x
                            | None => JArr []
                            end) = true)
    by (destruct (Py.lookup "licenses" m); auto).
  destruct (licenses_ok_iter _ Hl) as (entries & -> & Hd). cbn [bind].
  rewrite (license_loop_dicts _ _ Hd), relative_to_join. cbn [bind]. eauto.
Qed.

Lemma component_not_ok_step sbom pn pv pg results c :
  component_ok c = false ->
  exists e, component_step sbom pn pv pg results c = Raise e.
Proof.
  destruct c as [| | | | | |m]; try (eexists; reflexivity).
  unfold component_ok, optional, component_step. cbn [Py.get bind].
  destruct (Py.lookup "licenses" m) as [v|]; [|discriminate].
  intros H. destruct (licenses_not_ok_raises v H) as [e He].
  destruct (Py.iter (Py.or_ v (JArr []))) as [entries|x]; cbn [bind] in *;
    [|eauto].
  rewrite He. cbn [bind]. eauto.
Qed.

Lemma components_ok_loop rel pn pv pg items : forall acc,
  forallb component_ok items = true ->
  exists out,
    for_each (component_step (PurePath.join_parts SBOM_ROOT rel) pn pv pg)
             acc items = Ok out.
Proof.
  induction items as [|c items IH]; intros acc H; simpl; [eauto|].
  simpl in H. apply andb_true_iff in H as [Hc Hr].
  destruct (component_ok_step rel pn pv pg acc c Hc) as [r ->].
  cbn [bind]. now apply IH.
Qed.

Lemma components_not_ok_loop sbom pn pv pg v :
  components_ok v = false ->
  exists e,
    (items <- Py.iter v ;;
     for_each (component_step sbom pn pv pg) [] items) = Raise e.
Proof.
  destruct v as [| | | |s|items|kv]; simpl; intros H; eauto.
  - destruct s as [|a s]; [discriminate|]. simpl. eauto.
  - apply forallb_false_witness in H as (c & Hin & Hc).
    apply (for_each_raises _ items c Hin). intros s.
    now apply component_not_ok_step.
  - destruct kv as [|[k x] kv]; [discriminate|]. simpl. eauto.
Qed.

(** X8. Extraction from a parsed document of a discovered file completes
    exactly when: the document is an object; [metadata], when present, is
    an object whose [component], when present, is an object;
    [components], when present, is an array of objects (or an empty str
    or empty object); and each component's [licenses], when present, is
    false-y or an array of objects. In every other case it raises. *)
Theorem extraction_completes_iff (rel : list string) (data : json) :
  (exists rs,
      extract_parsed (PurePath.join_parts SBOM_ROOT rel) data = Ok rs)
  <-> extractable data = true.
Proof.
  unfold extract_parsed, extractable, optional.
  destruct data as [| | | | | |m];
    try (split; [intros [rs H]; discriminate|discriminate]).
  cbn [Py.get bind].
  assert (Hc : forall pn pv pg,
             (exists rs,
                 (items <- Py.iter (match Py.lookup "components" m with
                                    | Some x => x
                                    | None => JArr []
                                    end) ;;
                  for_each (component_step
                              (PurePath.join_parts SBOM_ROOT rel) pn pv pg)
                           [] items) = Ok rs)
             <-> match Py.lookup "components" m with
                 | Some v => components_ok v
                 | None => true
                 end = true).
  { intros pn pv pg. destruct (Py.lookup "components" m) as [v|].
    - split.
      + intros [rs H]. destruct (components_ok v) eqn:E; [reflexivity|].
        destruct (components_not_ok_loop
                    (PurePath.join_parts SBOM_ROOT rel) pn pv pg v E)
          as [e He].
        rewrite He in H. discriminate.
      + intros H. destruct v as [| | | |s|items|kv]; try discriminate.
        * simpl in H. apply String.eqb_eq in H. subst s. simpl. eauto.
        * simpl. now apply components_ok_loop.
        * destruct kv; [|discriminate]. simpl. eauto.
    - split; [reflexivity|]. intros _. simpl. eauto. }
  destruct (Py.lookup "metadata" m) as [md|].
  - destruct md as [| | | | | |md];
      try (split; [intros [rs H]; discriminate|
                   rewrite andb_false_l; discriminate]).
    cbn [Py.get bind metadata_ok]. unfold optional.
    destruct (Py.lookup "component" md) as [mc|].
    + destruct mc as [| | | | | |mc];
        try (split; [intros [rs H]; discriminate|
                     rewrite andb_false_l; discriminate]).
      cbn [Py.get bind Py.is_dict]. rewrite andb_true_l. apply Hc.
    + cbn [Py.get bind Py.lookup]. rewrite andb_true_l. apply Hc.
  - cbn [Py.get bind Py.lookup]. rewrite andb_true_l. apply Hc.
Qed.

(* ---- the enumeration order ---- *)

Lemma permutation_filter {A : Type} (f : A -> bool) l1 l2 :
  Permutation l1 l2 -> Permutation (filter f l1) (filter f l2).
Proof.
  induction 1 as [|x l1 l2 _ IH|x y l|l1 l2 l3 _ IH1 _ IH2]; simpl.
  - constructor.
  - destruct (f x); [now constructor|exact IH].
  - destruct (f x), (f y); try apply Permutation_refl. apply perm_swap.
  - eapply perm_trans; eassumption.
Qed.

Lemma has_key_sort_key k x : has_key k x = true -> sort_key x = Some k.
Proof.
  unfold has_key. destruct (sort_key x) as [k'|]; [|discriminate].
  intros H. apply key_eqb_eq in H. now subst.
Qed.

Lemma filter_key_nil k l :
  ~ In (Some k) (map sort_key l) -> filter (has_key k) l = [].
Proof.
  induction l as [|x l IH]; simpl; [reflexivity|].
  intros H. destruct (has_key k x) eqn:E.
  - exfalso. apply H. left. now apply has_key_sort_key.
  - apply IH. tauto.
Qed.

Lemma filter_key_short k l :
  NoDup (map sort_key l) -> List.length (filter (has_key k) l) <= 1.
Proof.
  induction l as [|x l IH]; simpl; [lia|].
  intros H. inversion H as [|? ? Hnin Hnd]; subst.
  destruct (has_key k x) eqn:E; [|auto].
  apply has_key_sort_key in E. rewrite E in Hnin.
  rewrite (filter_key_nil _ _ Hnin). simpl. lia.
Qed.

Lemma filter_key_perm k l1 l2 :
  NoDup (map sort_key l1) -> Permutation l1 l2 ->
  filter (has_key k) l1 = filter (has_key k) l2.
Proof.
  intros Hnd Hp.
  pose proof (filter_key_short k l1 Hnd) as Hlen.
  pose proof (permutation_filter (has_key k) _ _ Hp) as Hpf.
  destruct (filter (has_key k) l1) as [|x [|y t]]; simpl in Hlen; [| |lia].
  - now apply Permutation_nil in Hpf.
  - now apply Permutation_length_1_inv in Hpf.
Qed.

Lemma tree_like_perm rglob1 rglob2 :
  Permutation rglob1 rglob2 -> tree_like rglob1 = true ->
  tree_like rglob2 = true.
Proof.
  unfold tree_like. rewrite !forallb_forall. intros Hp H x Hx.
  apply H. eapply Permutation_in; [apply Permutation_sym, Hp|exact Hx].
Qed.

Lemma aggregated_perm rglob1 rglob2 :
  Permutation rglob1 rglob2 ->
  Permutation (aggregated (find_sbom_files SBOM_ROOT rglob1))
              (aggregated (find_sbom_files SBOM_ROOT rglob2)).
Proof.
  intros Hp. unfold aggregated, find_sbom_files.
  apply Permutation_flat_map, Permutation_map.
  now apply permutation_filter.
Qed.

(** X9. The order in which the files are enumerated does not reach the
    output when no two records share a sort key: two runs over the same
    files of the SBOM shape, enumerated in different orders, complete
    and write the same bytes. (With equal keys the order of the tied
    records follows the enumeration.) *)
Theorem enumeration_order_is_irrelevant (w1 w2 : world)
    (rglob1 rglob2 : list dir_entry)
    (Hroot1 : sbom_root w1 = Some rglob1)
    (Hroot2 : sbom_root w2 = Some rglob2)
    (Hperm : Permutation rglob1 rglob2)
    (Hlike : tree_like rglob1 = true)
    (Hdistinct :
       NoDup (map sort_key (aggregated (find_sbom_files SBOM_ROOT rglob1)))) :
  exists w1' w2' sorted,
    main w1 = Some (w1', Normal)
    /\ main w2 = Some (w2', Normal)
    /\ emitted w1 = Some sorted /\ emitted w2 = Some sorted
    /\ output_file w1' = Some (json_dump sorted)
    /\ output_file w2' = output_file w1'.
Proof.
  pose proof (tree_like_perm _ _ Hperm Hlike) as Hlike2.
  destruct (tree_like_files _ Hlike) as [Hnr1 Hk1].
  destruct (tree_like_files _ Hlike2) as [Hnr2 Hk2].
  destruct (list_sort_keyed _ Hk1) as [s1 Hs1].
  destruct (list_sort_keyed _ Hk2) as [s2 Hs2].
  pose proof (main_cases w1) as M1. pose proof (main_cases w2) as M2.
  rewrite Hroot1, Hnr1, Hs1 in M1. rewrite Hroot2, Hnr2, Hs2 in M2.
  destruct M1 as [l1 M1], M2 as [l2 M2].
  assert (Heq : s1 = s2).
  { pose proof (list_sort_stable_sort _ _ Hs1) as (Hp1 & Hso1 & Hf1).
    pose proof (list_sort_stable_sort _ _ Hs2) as (Hp2 & Hso2 & Hf2).
    pose proof (aggregated_perm _ _ Hperm) as Hagg.
    apply stable_sort_unique_aux; auto.
    - rewrite Forall_forall in *. intros x Hx. apply Hk1.
      eapply Permutation_in; [apply Permutation_sym, Hp1|exact Hx].
    - eapply perm_trans; [apply Permutation_sym, Hp1|].
      eapply perm_trans; [exact Hagg|exact Hp2].
    - intros k. rewrite Hf1, Hf2. now apply filter_key_perm. }
  subst s2. eexists. eexists. exists s1.
  split; [exact M1|]. split; [exact M2|].
  unfold emitted. rewrite Hroot1, Hroot2, Hnr1, Hnr2, Hs1, Hs2.
  repeat split.
Qed.

(** X11. What the derived project name keeps of the file name: a name
    that begins with its only dot (a file called [.json]) or that has no
    dot is kept whole; the extension is dropped when its dot follows at
    least one character and at least one character follows it. *)
Theorem hidden_file_keeps_its_name (dirs : list string) (ext : string)
    (Hext : PyStr.contains "."%char ext = false) :
  infer_project_name_from_path
    (PurePath.join_parts SBOM_ROOT (dirs ++ [String "."%char ext])%list)
  = PyStr.join "/" (dirs ++ [String "."%char ext])%list
  /\ infer_project_name_from_path
       (PurePath.join_parts SBOM_ROOT (dirs ++ [ext])%list)
     = PyStr.join "/" (dirs ++ [ext])%list
  /\ (forall base, base <> "" -> ext <> "" ->
        infer_project_name_from_path
          (PurePath.join_parts SBOM_ROOT (dirs ++ [String.append base (String "."%char ext)])%list)
        = PyStr.join "/" (dirs ++ [base])%list).
Proof.
  assert (Hgen : forall name,
             infer_project_name_from_path
               (PurePath.join_parts SBOM_ROOT (dirs ++ [name])%list)
             = PyStr.join "/" (dirs ++ [PurePath.stem_of_name name])%list).
  { intros name. unfold infer_project_name_from_path.
    rewrite relative_to_join. unfold PurePath.parts. simpl.
    destruct (dirs ++ [name])%list eqn:E; [destruct dirs; discriminate|].
    now rewrite <- E, removelast_last, last_last. }
  rewrite !Hgen. split; [|split].
  - do 2 f_equal. unfold PurePath.stem_of_name. simpl.
    now rewrite (rfind_none _ _ Hext).
  - do 2 f_equal. unfold PurePath.stem_of_name.
    now rewrite (rfind_none _ _ Hext).
  - intros base Hb He. rewrite Hgen.
    change (String.append base (String "."%char ext))
      with (base ++ "." ++ ext).
    now rewrite stem_of_name_suffix.
Qed.

End Program.

(* ===================================================================== *)
(** ** The properties at concrete inputs *)
(* ===================================================================== *)

Lemma main_emits_stable_sort_witness :
  sbom_root Example.two_files
  = Some [Example.broken_entry; Example.alpha_entry]
  /\ tree_like [Example.broken_entry; Example.alpha_entry] = true
  /\ exists w' sorted,
       main Example.script Example.base_dir Example.encode Example.floatstr
            Example.two_files = Some (w', Normal)
       /\ output_file w'
          = Some (json_dump Example.encode Example.floatstr sorted)
       /\ Permutation
            (aggregated Example.base_dir
               (find_sbom_files (SBOM_ROOT Example.base_dir)
                  [Example.broken_entry; Example.alpha_entry]))
            sorted
       /\ Sorted record_le sorted.
Proof.
  split; [reflexivity|]. split; [reflexivity|].
  destruct (main_emits_stable_sort Example.script Example.base_dir
              Example.encode Example.floatstr Example.two_files
              [Example.broken_entry; Example.alpha_entry] eq_refl eq_refl)
    as (w' & sorted & Hm & Ho & _ & Hp & Hs & _).
  exists w', sorted. auto.
Defined.


Lemma project_name_declared_or_inferred_witness :
  exists rs,
    extract_parsed Example.base_dir
      (PurePath.join_parts (SBOM_ROOT Example.base_dir)
         ["teams"; "alpha"; "sbom.json"]) Example.alpha_doc = Ok rs
    /\ List.length rs = 2
    /\ Forall (fun r => project_name r = JStr "teams/alpha/sbom") rs.
Proof.
  eexists. split; [reflexivity|]. split; [reflexivity|].
  exact (proj1
           (project_name_declared_or_inferred Example.base_dir
              ["teams"; "alpha"; "sbom.json"] Example.alpha_doc _ eq_refl)).
Defined.

Lemma unreadable_file_contributes_nothing_witness :
  sbom_root Example.two_files
  = Some [Example.broken_entry; Example.alpha_entry]
  /\ without_unreadable [Example.broken_entry; Example.alpha_entry]
     = [Example.alpha_entry]
  /\ outcome (main Example.script Example.base_dir Example.encode
                Example.floatstr Example.two_files)
     = outcome (main Example.script Example.base_dir Example.encode
                  Example.floatstr
                  (Example.world_of (Some [Example.alpha_entry]))).
Proof.
  split; [reflexivity|]. split; [reflexivity|].
  exact (proj1 (proj2 (proj2
           (unreadable_file_contributes_nothing Example.script
              Example.base_dir Example.encode Example.floatstr
              Example.two_files
              [Example.broken_entry; Example.alpha_entry] eq_refl)))).
Defined.

Lemma exit_code_of_run_witness :
  sbom_root Example.empty_root = Some []
  /\ sbom_root Example.missing_root = None
  /\ writable Example2.os_ok Example.empty_root
  /\ (exists w',
        main_os Example.script Example.base_dir Example.encode
                Example.floatstr Example2.os_ok Example.empty_root
        = Some (w', Ended Normal)
        /\ os_exit_code (Ended Normal) = 0%Z
        /\ output_file w' = Some "[]")
  /\ (exists w',
        main_os Example.script Example.base_dir Example.encode
                Example.floatstr Example2.os_ok Example.missing_root
        = Some (w', Ended (SystemExit
                             "SBOM root directory does not exist: /srv/app/sboms"))
        /\ output_file w' = None /\ output_dir w' = false)
  /\ (exists w',
        main_os Example.script Example.base_dir Example.encode
                Example.floatstr Example2.os_data_is_a_file Example.empty_root
        = Some (w', OSError "[Errno 17] File exists: '/srv/app/data'")
        /\ os_exit_code (OSError "[Errno 17] File exists: '/srv/app/data'")
           = 1%Z
        /\ output_file w' = None).
Proof.
  assert (Hw : writable Example2.os_ok Example.empty_root)
    by (split; [right; reflexivity|split; reflexivity]).
  split; [reflexivity|]. split; [reflexivity|]. split; [exact Hw|].
  split; [|split].
  - exact (proj1 (proj2
             (exit_code_of_run Example.script Example.base_dir
                Example.encode Example.floatstr Example2.os_ok
                Example.empty_root))
             [] eq_refl eq_refl Hw).
  - destruct (proj1
                (exit_code_of_run Example.script Example.base_dir
                   Example.encode Example.floatstr Example2.os_ok
                   Example.missing_root) eq_refl)
      as (w' & Hm & _ & Hf & Hd).
    exists w'. auto.
  - destruct (proj1 (proj2 (proj2 (proj2 (proj2 (proj2
                (exit_code_of_run Example.script Example.base_dir
                   Example.encode Example.floatstr Example2.os_data_is_a_file
                   Example.empty_root))))))
                [] "[Errno 17] File exists: '/srv/app/data'"
                eq_refl eq_refl eq_refl)
      as (w' & Hm & Hc & Hf & _).
    exists w'. auto.
Defined.

(** C5 as stated fails: the root exists, a file parses to an array, and
    the run ends with exit code 1. *)
Lemma nonzero_exit_with_existing_root :
  sbom_root Example.array_file = Some [Example.array_entry]
  /\ exists w',
       main Example.script Example.base_dir Example.encode Example.floatstr
            Example.array_file = Some (w', Uncaught AttributeError)
       /\ exit_code (Uncaught AttributeError) = 1%Z
       /\ output_file w' = None.
Proof.
  split; [reflexivity|]. eexists. split; [reflexivity|].
  split; reflexivity.
Qed.

Lemma missing_fields_default_witness :
  exists r,
    component_step Example.base_dir
      (PurePath.join_parts (SBOM_ROOT Example.base_dir)
         ["teams"; "alpha"; "sbom.json"])
      (JStr "alpha") (JStr "") (JStr "") [] (JObj Example.bare) = Ok [r]
    /\ component_version r = JStr "" /\ component_group r = JStr ""
    /\ purl r = JStr "" /\ component_type r = JStr ""
    /\ licenses r = [].
Proof.
  eexists. split.
  - exact (missing_fields_default Example.base_dir
             ["teams"; "alpha"; "sbom.json"]
             (JStr "alpha") (JStr "") (JStr "") [] Example.bare
             eq_refl eq_refl eq_refl eq_refl eq_refl).
  - repeat split.
Defined.

Lemma falsy_licenses_are_empty_witness :
  Py.lookup "licenses" Example.null_licenses = Some JNull
  /\ Py.truthy JNull = false
  /\ exists r,
       component_step Example.base_dir
         (PurePath.join_parts (SBOM_ROOT Example.base_dir)
            ["teams"; "alpha"; "sbom.json"])
         (JStr "alpha") (JStr "") (JStr "") []
         (JObj Example.null_licenses) = Ok [r]
       /\ licenses r = [].
Proof.
  split; [reflexivity|]. split; [reflexivity|].
  exact (falsy_licenses_are_empty Example.base_dir
           ["teams"; "alpha"; "sbom.json"]
           (JStr "alpha") (JStr "") (JStr "") [] Example.null_licenses
           JNull eq_refl eq_refl).
Defined.

Lemma runs_are_reproducible_witness :
  exists w1' w2',
    main Example.script Example.base_dir Example.encode Example.floatstr
         Example.two_files = Some (w1', Normal)
    /\ main Example.script Example.base_dir Example.encode Example.floatstr
            {| sbom_root := sbom_root Example.two_files;
               output_dir := true;
               output_file := Some "stale";
               stdout := ["earlier line"] |} = Some (w2', Normal)
    /\ output_file w2' = output_file w1'.
Proof.
  eexists.
  destruct (runs_are_reproducible Example.script Example.base_dir
              Example.encode Example.floatstr Example.two_files
              {| sbom_root := sbom_root Example.two_files;
                 output_dir := true;
                 output_file := Some "stale";
                 stdout := ["earlier line"] |}
              _ Normal eq_refl eq_refl)
    as [(w2' & H2 & Ho) _].
  exists w2'. split; [reflexivity|]. split; [exact H2|]. exact (Ho eq_refl).
Defined.

Lemma extraction_needs_expected_shape_witness :
  expected_shape (JArr []) = false
  /\ exists w' x,
       main Example.script Example.base_dir Example.encode Example.floatstr
            Example.array_file = Some (w', Uncaught x)
       /\ exit_code (Uncaught x) = 1%Z
       /\ output_file w' = output_file Example.array_file.
Proof.
  split; [reflexivity|].
  exact (proj2 (proj2
           (extraction_needs_expected_shape Example.script Example.base_dir
              Example.encode Example.floatstr Example.array_file
              [Example.array_entry] Example.array_entry (JArr [])
              eq_refl (or_introl eq_refl) eq_refl eq_refl eq_refl))).
Defined.

Lemma sbom_path_is_relative_witness :
  walk_ok [Example.alpha_entry] = true
  /\ exists rs,
       extract_parsed Example.base_dir
         (PurePath.join_parts (SBOM_ROOT Example.base_dir)
            (rel_parts Example.alpha_entry)) Example.alpha_doc = Ok rs
       /\ List.length rs = 2
       /\ forall r, In r rs ->
            sbom_path r = "teams/alpha/sbom.json"
            /\ PyStr.starts_with "/"%char (sbom_path r) = false
            /\ PyStr.contains "\"%char (sbom_path r) = false.
Proof.
  split; [reflexivity|]. eexists. split; [reflexivity|].
  split; [reflexivity|]. intros r Hr.
  exact (proj1
           (sbom_path_is_relative Example.script Example.base_dir
              Example.encode Example.floatstr
              [Example.alpha_entry] Example.alpha_entry Example.alpha_doc
              _ r eq_refl (or_introl eq_refl) eq_refl eq_refl eq_refl Hr)).
Defined.

(** C7 as stated fails: on a POSIX file system a file name may hold a
    backslash, and [as_posix] leaves it in the [sbom_path]. *)
Lemma sbom_path_with_backslash :
  walk_ok [Example.backslash_entry] = true
  /\ exists w' r,
       main Example.script Example.base_dir Example.encode Example.floatstr
            Example.backslash_file = Some (w', Normal)
       /\ emitted Example.base_dir Example.backslash_file = Some [r]
       /\ output_file w'
          = Some (json_dump Example.encode Example.floatstr [r])
       /\ sbom_path r = "we\ird.json"
       /\ PyStr.contains "\"%char (sbom_path r) = true.
Proof.
  split; [reflexivity|]. eexists. eexists.
  split; [reflexivity|]. split; [reflexivity|].
  split; [reflexivity|]. split; reflexivity.
Qed.

(* ===================================================================== *)
(** ** The further properties at concrete inputs *)
(* ===================================================================== *)


Lemma sort_is_idempotent_witness :
  exists sorted,
    list_sort
      (aggregated Example.base_dir
         (find_sbom_files (SBOM_ROOT Example.base_dir) [Example.alpha_entry]))
    = Some sorted
    /\ List.length sorted = 2
    /\ list_sort sorted = Some sorted.
Proof.
  eexists. split; [reflexivity|]. split; [reflexivity|].
  exact (proj1
           (sort_is_idempotent Example.script Example.encode
              (aggregated Example.base_dir
                 (find_sbom_files (SBOM_ROOT Example.base_dir)
                    [Example.alpha_entry])) _ eq_refl)).
Defined.

Lemma empty_array_iff_no_record_witness :
  exists w',
    main Example.script Example.base_dir Example.encode Example.floatstr
         Example.empty_root = Some (w', Normal)
    /\ (output_file w' = Some "[]"
        <-> emitted Example.base_dir Example.empty_root = Some []).
Proof.
  eexists. split; [reflexivity|].
  exact (empty_array_iff_no_record Example.script Example.base_dir
           Example.encode Example.floatstr Example.empty_root _ eq_refl).
Defined.

Lemma licenses_are_truthy_witness :
  exists r,
    component_step Example.base_dir
      (PurePath.join_parts (SBOM_ROOT Example.base_dir)
         ["teams"; "alpha"; "sbom.json"])
      (JStr "alpha") (JStr "") (JStr "") [] (JObj Example.zlib) = Ok [r]
    /\ Forall (fun l => Py.truthy l = true) (licenses r)
    /\ List.length (licenses r) <= 2.
Proof.
  destruct (licenses_are_truthy Example.base_dir
              (PurePath.join_parts (SBOM_ROOT Example.base_dir)
                 ["teams"; "alpha"; "sbom.json"])
              (JStr "alpha") (JStr "") (JStr "") [] _ Example.zlib
              [Example.mit_entry; Example.apache_entry] eq_refl eq_refl)
    as (r & Hr & Ht & Hl).
  exists r. split; [|auto]. simpl in Hr. injection Hr as <-. reflexivity.
Defined.

Lemma project_name_is_never_empty_witness :
  exists rs,
    extract_parsed Example.base_dir
      (PurePath.join_parts (SBOM_ROOT Example.base_dir)
         ["teams"; "alpha"; "sbom.json"]) Example.alpha_doc = Ok rs
    /\ List.length rs = 2
    /\ Forall (fun r => Py.truthy (project_name r) = true
                        /\ project_name r <> JStr "") rs.
Proof.
  eexists. split; [reflexivity|]. split; [reflexivity|].
  refine (proj2
            (project_name_is_never_empty Example.base_dir
               ["teams"; "alpha"] "sbom.json" Example.alpha_doc _ _ eq_refl)).
  discriminate.
Defined.

Lemma one_record_per_component_witness :
  exists rs,
    extract_parsed Example.base_dir
      (PurePath.join_parts (SBOM_ROOT Example.base_dir)
         ["teams"; "alpha"; "sbom.json"]) Example.alpha_doc = Ok rs
    /\ List.length rs = 2.
Proof.
  eexists. split; [reflexivity|].
  exact (proj1
           (one_record_per_component Example.base_dir
              (PurePath.join_parts (SBOM_ROOT Example.base_dir)
                 ["teams"; "alpha"; "sbom.json"])
              [("components", JArr [JObj Example.zlib; JObj Example.bare])]
              [JObj Example.zlib; JObj Example.bare] _ eq_refl eq_refl)).
Defined.

Lemma enumeration_order_is_irrelevant_witness :
  exists w1' w2',
    main Example.script Example.base_dir Example.encode Example.floatstr
         (Example.world_of (Some [Example.alpha_entry; Example2.beta_entry]))
    = Some (w1', Normal)
    /\ main Example.script Example.base_dir Example.encode Example.floatstr
            (Example.world_of
               (Some [Example2.beta_entry; Example.alpha_entry]))
       = Some (w2', Normal)
    /\ output_file w2' = output_file w1'.
Proof.
  destruct (enumeration_order_is_irrelevant Example.script Example.base_dir
              Example.encode Example.floatstr
              (Example.world_of
                 (Some [Example.alpha_entry; Example2.beta_entry]))
              (Example.world_of
                 (Some [Example2.beta_entry; Example.alpha_entry]))
              [Example.alpha_entry; Example2.beta_entry]
              [Example2.beta_entry; Example.alpha_entry]
              eq_refl eq_refl (perm_swap _ _ _) eq_refl)
    as (w1' & w2' & sorted & H1 & H2 & _ & _ & _ & Ho).
  - simpl. repeat constructor; simpl; intuition discriminate.
  - exists w1', w2'. auto.
Defined.

Lemma hidden_file_keeps_its_name_witness :
  PyStr.contains "."%char "json" = false
  /\ infer_project_name_from_path Example.base_dir
       (PurePath.join_parts (SBOM_ROOT Example.base_dir) ["teams"; ".json"])
     = "teams/.json".
Proof.
  split; [reflexivity|].
  exact (proj1
           (hidden_file_keeps_its_name Example.base_dir ["teams"] "json"
              eq_refl)).
Defined.
